(** * Train-delay model training pipeline (notebooks/03_train_model.ipynb)

    A shallow embedding of the notebook's cells: feature engineering
    ([create_features]), route encoding (scikit-learn's [LabelEncoder]),
    evaluation ([evaluate_model]), model selection, artifact persistence and
    the sample prediction helper ([make_sample_prediction]).

    Conventions.
    - Python floats (delays, coordinates, metrics, predictions) are modelled
      as the real numbers [R] of the Standard Library: no rounding, and the
      missing value NaN is an explicit [None] / [SNaN] where pandas can
      produce one.
    - Python [str] values are [string]s (byte strings holding the UTF-8
      encoding); the byte-wise lexicographic order [String.compare] agrees
      with Python's code-point order on UTF-8 text.
    - Python dicts are stdpp [gmap]s with string keys; a DataFrame whose
      column order matters is an association list of named columns.
    - Fitted regressors are opaque: a type [model] with a [predict]
      operation, taken as section variables. *)

From Stdlib Require Import ZArith List Reals Lra Lia Bool.
From Stdlib Require Import Strings.String Strings.Ascii.
From Stdlib Require Import Structures.OrderedTypeEx Sorting.Sorted Sorting.Permutation.
From stdpp Require Import base option gmap strings pretty.
Import ListNotations.

Local Open Scope string_scope.
Local Open Scope list_scope.

(** ** Python-level helpers *)

(** The outcome of running a Python call: a value or a raised exception
    (named by its class). *)
Inductive outcome (A : Type) : Type :=
| Returned (a : A)
| Raised (exn : string).
Arguments Returned {A} a.
Arguments Raised {A} exn.

Definition obind {A B} (o : outcome A) (k : A -> outcome B) : outcome B :=
  match o with
  | Returned a => k a
  | Raised e => Raised e
  end.

Notation "'let!' x := c 'in' k" := (obind c (fun x => k))
  (at level 10, x name, c at level 100, k at level 200).

Fixpoint traverse {A B} (f : A -> outcome B) (l : list A) : outcome (list B) :=
  match l with
  | [] => Returned []
  | a :: l' => let! b := f a in let! bs := traverse f l' in Returned (b :: bs)
  end.

(** ** Ordering of route keys *)

Definition str_lt (a b : string) : Prop := String.compare a b = Lt.

(** [sorted(set(values))]: the distinct values in increasing order. *)
Fixpoint insert_sorted (k : string) (l : list string) : list string :=
  match l with
  | [] => [k]
  | c :: l' =>
      match String.compare k c with
      | Lt => k :: l
      | Eq => l
      | Gt => c :: insert_sorted k l'
      end
  end.

Definition sorted_set (values : list string) : list string :=
  fold_right insert_sorted [] values.

(** Position of the first occurrence of [k] in [l]. *)
Fixpoint index_of (k : string) (l : list string) : option nat :=
  match l with
  | [] => None
  | c :: l' => if String.eqb k c then Some O
               else option_map S (index_of k l')
  end.

(** ** sklearn.preprocessing.LabelEncoder

    [fit] stores the sorted distinct labels in [classes_]; [transform]
    maps a label to its position in [classes_] and raises [ValueError] on a
    label that was not seen by [fit]; [fit_transform] fits and returns the
    codes of the fitted sequence. *)
Module LabelEncoder.

Record t : Type := { classes_ : list string }.

Definition fit (y : list string) : t := {| classes_ := sorted_set y |}.

Definition encode (le : t) (k : string) : outcome nat :=
  match index_of k (classes_ le) with
  | Some i => Returned i
  | None => Raised "ValueError"
  end.

Definition transform (le : t) (y : list string) : outcome (list nat) :=
  traverse (encode le) y.

Definition fit_transform (y : list string) : t * outcome (list nat) :=
  let le := fit y in (le, transform le y).

End LabelEncoder.

(** ** Data model *)

(** One row of the query result (cell 6). *)
Record departure : Type := {
  train_signature_code : string;
  from_station : string;
  to_station : string;
  hour : Z;
  delay : R;
  from_lat : R;
  from_long : R;
  to_lat : R;
  to_long : R
}.

(** One row of [df_features]: the source row and the derived columns.
    [route_avg_delay] and [route_count] come out of a left merge and are
    missing ([None], pandas' NaN) when the merge finds no partner;
    [route_std_delay] has gone through [fillna(0)]. *)
Record feature_row : Type := {
  source : departure;
  route : string;
  hour_sin : R;
  hour_cos : R;
  route_distance : R;
  route_avg_delay : option R;
  route_std_delay : R;
  route_count : option nat;
  is_rush_hour : bool;
  is_night : bool
}.

(** ** pandas aggregations over a numeric column *)

Definition Rsum (xs : list R) : R := fold_right Rplus 0%R xs.

(** [Series.mean]: NaN on an empty group. The value is the exact quotient;
    pandas' float64 sum and division agree with it up to rounding only. *)
Definition mean (xs : list R) : option R :=
  match xs with
  | [] => None
  | _ => Some (Rsum xs / INR (length xs))%R
  end.

(** [Series.std] (sample standard deviation, [ddof=1]): NaN unless the
    group has at least two observations. *)
Definition std (xs : list R) : option R :=
  match mean xs with
  | Some m =>
      if (length xs <=? 1)%nat then None
      else Some (sqrt (Rsum (map (fun x => (x - m) ^ 2)%R xs)
                       / INR (length xs - 1)))
  | None => None
  end.

Definition count (xs : list R) : nat := length xs.

(** [Series.fillna(v)] on one cell. *)
Definition fillna (v : R) (x : option R) : R :=
  match x with
  | Some r => r
  | None => v
  end.

(** One row of [route_stats]. *)
Record route_stat : Type := {
  rs_route : string;
  rs_mean : option R;
  rs_std : option R;
  rs_count : nat
}.

(** [df.groupby(key)[value]]: one group per distinct key, keys sorted, each
    group holding its values in row order. *)
Definition groupby (keyed : list (string * R)) : list (string * list R) :=
  map (fun k => (k, map snd (List.filter (fun kv => String.eqb (fst kv) k) keyed)))
      (sorted_set (map fst keyed)).

(** [.agg(['mean', 'std', 'count']).reset_index()] with the columns renamed
    to [route], [route_avg_delay], [route_std_delay], [route_count]. *)
Definition agg_mean_std_count (groups : list (string * list R)) : list route_stat :=
  map (fun g => {| rs_route := fst g;
                   rs_mean := mean (snd g);
                   rs_std := std (snd g);
                   rs_count := count (snd g) |}) groups.

(** [left.merge(right, on=key, how='left')]: left order is kept; a left row
    is paired with every right row that has its key, or with a missing
    partner when there is none. *)
Definition merge_left {A B} (lkey : A -> string) (rkey : B -> string)
    (left : list A) (right : list B) : list (A * option B) :=
  flat_map (fun a =>
    match List.filter (fun b => String.eqb (rkey b) (lkey a)) right with
    | [] => [(a, None)]
    | ms => map (fun b => (a, Some b)) ms
    end) left.

(** ** Cell 10: [create_features] *)

Definition route_key (d : departure) : string :=
  from_station d ++ "_" ++ to_station d.

(** The cyclical hour features, with the real sine, cosine and [PI]: the
    float64 numbers that NumPy computes agree with these values up to
    rounding only. *)
Definition cyclical_sin (h : Z) : R := sin (2 * PI * IZR h / 24).
Definition cyclical_cos (h : Z) : R := cos (2 * PI * IZR h / 24).

(** The route distance in exact real arithmetic over coordinates that are
    numbers; float64 rounding, underflow and missing coordinates are not
    represented. *)
Definition distance_km (d : departure) : R :=
  (sqrt ((to_lat d - from_lat d) ^ 2 + (to_long d - from_long d) ^ 2) * 111)%R.

Definition rush_hour (h : Z) : bool :=
  ((h >=? 7)%Z && (h <=? 9)%Z) || ((h >=? 17)%Z && (h <=? 19)%Z).

Definition night (h : Z) : bool :=
  (h <=? 6)%Z || (h >=? 22)%Z.

Definition route_stats_of (df : list departure) : list route_stat :=
  agg_mean_std_count (groupby (map (fun d => (route_key d, delay d)) df)).

Definition featurize (ds : departure * option route_stat) : feature_row :=
  let d := fst ds in
  let st := snd ds in
  {| source := d;
     route := route_key d;
     hour_sin := cyclical_sin (hour d);
     hour_cos := cyclical_cos (hour d);
     route_distance := distance_km d;
     route_avg_delay := match st with Some s => rs_mean s | None => None end;
     route_std_delay :=
       fillna 0 (match st with Some s => rs_std s | None => None end);
     route_count := option_map rs_count st;
     is_rush_hour := rush_hour (hour d);
     is_night := night (hour d) |}.

Definition create_features (df : list departure) : list feature_row :=
  map featurize (merge_left route_key rs_route df (route_stats_of df)).

(** ** DataFrames with named, ordered columns *)

(** A cell of a DataFrame or of a NumPy row. *)
Inductive scalar : Type :=
| SStr (s : string)
| SInt (z : Z)
| SFloat (x : R)
| SBool (b : bool)
| SNaN.

Definition frame : Type := list (string * list scalar).

Definition columns (f : frame) : list string := map fst f.

Fixpoint get_column (c : string) (f : frame) : option (list scalar) :=
  match f with
  | [] => None
  | (n, v) :: f' => if String.eqb n c then Some v else get_column c f'
  end.

(** [df[cols]]: the listed columns, in the listed order; [KeyError] when a
    name is not a column. *)
Definition select_columns (cols : list string) (f : frame) : outcome frame :=
  traverse (fun c => match get_column c f with
                 | Some v => Returned (c, v)
                 | None => Raised "KeyError"
                 end) cols.

(** [df[c] = v]: an existing column is replaced where it stands, a new
    one is appended. *)
Fixpoint set_column (c : string) (v : list scalar) (f : frame) : frame :=
  match f with
  | [] => [(c, v)]
  | (n, w) :: f' => if String.eqb n c then (n, v) :: f'
                    else (n, w) :: set_column c v f'
  end.

Definition of_float (x : option R) : scalar :=
  match x with
  | Some r => SFloat r
  | None => SNaN
  end.

Definition of_count (x : option nat) : scalar :=
  match x with
  | Some n => SInt (Z.of_nat n)
  | None => SNaN
  end.

(** [df_features] as a DataFrame: the nine query columns, the [route]
    column and the derived columns, in the order the notebook creates
    them (the exploration cell has already added a [route] column to the
    loaded frame, which [create_features] overwrites in its copy). *)
Definition frame_of_features (rows : list feature_row) : frame :=
  let col {A} (f : feature_row -> A) (inj : A -> scalar) := map (fun r => inj (f r)) rows in
  [ ("train_signature_code", col (fun r => train_signature_code (source r)) SStr);
    ("from_station", col (fun r => from_station (source r)) SStr);
    ("to_station", col (fun r => to_station (source r)) SStr);
    ("hour", col (fun r => hour (source r)) SInt);
    ("delay", col (fun r => delay (source r)) SFloat);
    ("from_lat", col (fun r => from_lat (source r)) SFloat);
    ("from_long", col (fun r => from_long (source r)) SFloat);
    ("to_lat", col (fun r => to_lat (source r)) SFloat);
    ("to_long", col (fun r => to_long (source r)) SFloat);
    ("route", col route SStr);
    ("hour_sin", col hour_sin SFloat);
    ("hour_cos", col hour_cos SFloat);
    ("route_distance", col route_distance SFloat);
    ("route_avg_delay", col route_avg_delay of_float);
    ("route_std_delay", col route_std_delay SFloat);
    ("route_count", col route_count of_count);
    ("is_rush_hour", col is_rush_hour SBool);
    ("is_night", col is_night SBool) ].

(** ** Cell 11: feature matrix and route encoding *)

Definition feature_columns : list string :=
  [ "hour"; "hour_sin"; "hour_cos"; "route_distance";
    "route_avg_delay"; "route_std_delay"; "route_count";
    "is_rush_hour"; "is_night"; "route" ].

Definition categorical_columns : list string := [ "route" ].

(** The console line printed when a route has no record:
    a cross mark (U+274C), the text, and an arrow (U+2192) between the two
    station codes, as UTF-8 bytes. *)
Definition cross_mark : string :=
  String "226"%char (String "157"%char (String "140"%char EmptyString)).

Definition right_arrow : string :=
  String "226"%char (String "134"%char (String "146"%char EmptyString)).

Definition no_data_message (from_station to_station : string) : string :=
  cross_mark ++ " No data found for route " ++ from_station ++ " "
    ++ right_arrow ++ " " ++ to_station.

(** A fitted regressor (XGBoost or random forest): only [predict] is used,
    on a matrix of feature rows. *)
Class Regressor (model : Type) : Type :=
  predict : model -> list (list scalar) -> list R.

(** Evaluation results (the dict returned by [evaluate_model]). *)
Record results : Type := {
  predictions : list R;
  rmse : R;
  mae : R;
  r2 : R
}.

(** The metadata record written to [model_info.json]. *)
Record performance_info : Type := {
  perf_rmse : R;
  perf_mae : R;
  perf_r2 : R
}.

Record feature_info : Type := {
  feature_names : list string;
  model_type : string;
  performance : performance_info
}.

Section Notebook.

Context {model : Type} `{Regressor model}.

(** scikit-learn's metric functions [(y_true, y_pred)] and Python's
    rendering of a float as text are library code, kept abstract. *)
Variables mean_squared_error mean_absolute_error r2_score : list R -> list R -> R.
Variable float_str : R -> string.

(** [Series.astype(str)] on one cell. *)
Definition astype_str (s : scalar) : string :=
  match s with
  | SStr s => s
  | SInt z => pretty z
  | SFloat x => float_str x
  | SBool true => "True"
  | SBool false => "False"
  | SNaN => "nan"
  end.

(** One turn of the loop over [categorical_columns]. *)
Definition encode_column (col : string)
    (st : frame * gmap string LabelEncoder.t)
    : outcome (frame * gmap string LabelEncoder.t) :=
  match get_column col (fst st) with
  | None => Raised "KeyError"
  | Some v =>
      let fitted := LabelEncoder.fit_transform (map astype_str v) in
      let! codes := snd fitted in
      Returned (set_column col (map (fun n => SInt (Z.of_nat n)) codes) (fst st),
                <[ String.append col "_encoder" := fst fitted ]> (snd st))
  end.

Fixpoint encode_columns (cols : list string)
    (st : frame * gmap string LabelEncoder.t)
    : outcome (frame * gmap string LabelEncoder.t) :=
  match cols with
  | [] => Returned st
  | col :: cols' => let! st' := encode_column col st in encode_columns cols' st'
  end.

(** Cell 11: [X], [y] and [label_encoders]. *)
Definition prepare_features (df_features : list feature_row)
    : outcome (frame * list R * gmap string LabelEncoder.t) :=
  let! X := select_columns feature_columns (frame_of_features df_features) in
  let y := map (fun r => delay (source r)) df_features in
  let! Xe := encode_columns categorical_columns (X, ∅) in
  Returned (fst Xe, y, snd Xe).

(** ** Cell 17: [evaluate_model] (console output omitted) *)
Definition evaluate_model (m : model) (X_test : list (list scalar))
    (y_test : list R) (model_name : string) : results :=
  let y_pred := predict m X_test in
  let y_pred := map (fun p => Rmax p 0) y_pred in
  let mse := mean_squared_error y_test y_pred in
  let mae := mean_absolute_error y_test y_pred in
  let r2 := r2_score y_test y_pred in
  let rmse := sqrt mse in
  {| predictions := y_pred; rmse := rmse; mae := mae; r2 := r2 |}.

(** ** Cell 21: model selection *)
Record selection : Type := {
  best_model : model;
  best_model_name : string;
  best_results : results
}.

Definition select_best (xgb_model rf_model : model)
    (xgb_results rf_results : results) : selection :=
  if Rlt_dec (rmse xgb_results) (rmse rf_results) then
    {| best_model := xgb_model;
       best_model_name := "XGBoost";
       best_results := xgb_results |}
  else
    {| best_model := rf_model;
       best_model_name := "Random Forest";
       best_results := rf_results |}.

(** ** Cell 22: persistence

    The working directory is a map from file names to what was written;
    [joblib.dump] and [json.dump] store the object, loading gives it
    back. *)
Inductive artifact : Type :=
| Pickled_model (m : model)
| Pickled_encoders (e : gmap string LabelEncoder.t)
| Json_info (i : feature_info).

Definition make_feature_info (names : list string) (sel : selection)
    : feature_info :=
  {| feature_names := names;
     model_type := best_model_name sel;
     performance :=
       {| perf_rmse := rmse (best_results sel);
          perf_mae := mae (best_results sel);
          perf_r2 := r2 (best_results sel) |} |}.

Definition save_artifacts (sel : selection)
    (label_encoders : gmap string LabelEncoder.t) (names : list string)
    (files : gmap string artifact) : gmap string artifact :=
  let files := <[ "trained_model.pkl" := Pickled_model (best_model sel) ]> files in
  let files := <[ "encoders.pkl" := Pickled_encoders label_encoders ]> files in
  <[ "model_info.json" := Json_info (make_feature_info names sel) ]> files.

Definition load_encoders (files : gmap string artifact)
    : outcome (gmap string LabelEncoder.t) :=
  match files !! "encoders.pkl" with
  | Some (Pickled_encoders e) => Returned e
  | Some _ => Raised "TypeError"
  | None => Raised "FileNotFoundError"
  end.

(** ** Cell 24: [make_sample_prediction]

    Returns the lines printed and the outcome of the call; [None] is
    Python's [None]. *)
Definition encode_route (label_encoders : gmap string LabelEncoder.t)
    (k : string) : outcome nat :=
  match label_encoders !! "route_encoder" with
  | None => Raised "KeyError"
  | Some le =>
      let! codes := LabelEncoder.transform le [k] in
      match codes with
      | c :: _ => Returned c
      | [] => Raised "IndexError"
      end
  end.

Definition make_sample_prediction (df_features : list feature_row)
    (label_encoders : gmap string LabelEncoder.t) (names : list string)
    (best : model) (from_station' to_station' : string) (hour' : Z)
    : list string * outcome (option R) :=
  let sample_route :=
    List.filter (fun r => String.eqb (from_station (source r)) from_station'
                          && String.eqb (to_station (source r)) to_station')
                df_features in
  match sample_route with
  | [] => ([no_data_message from_station' to_station'], Returned None)
  | route_data :: _ =>
      ([],
       let! code := encode_route label_encoders (route route_data) in
       let pred_features : gmap string scalar :=
         <[ "route" := SInt (Z.of_nat code) ]>
         (<[ "is_night" := SBool (night hour') ]>
         (<[ "is_rush_hour" := SBool (rush_hour hour') ]>
         (<[ "route_count" := of_count (route_count route_data) ]>
         (<[ "route_std_delay" := SFloat (route_std_delay route_data) ]>
         (<[ "route_avg_delay" := of_float (route_avg_delay route_data) ]>
         (<[ "route_distance" := SFloat (route_distance route_data) ]>
         (<[ "hour_cos" := SFloat (cyclical_cos hour') ]>
         (<[ "hour_sin" := SFloat (cyclical_sin hour') ]>
         (<[ "hour" := SInt hour' ]> ∅))))))))) in
       let! X_pred :=
         traverse (fun col => match pred_features !! col with
                          | Some v => Returned v
                          | None => Raised "KeyError"
                          end) names in
       match predict best [X_pred] with
       | prediction :: _ => Returned (Some (Rmax 0 prediction))
       | [] => Raised "IndexError"
       end)
  end.

(** ** Cells 10 to 22 in sequence

    Fitting and the train/test split are library calls: the two fitted
    regressors and the held-out split are inputs here. *)
Definition notebook_run (df : list departure) (xgb_model rf_model : model)
    (X_test : list (list scalar)) (y_test : list R)
    (files : gmap string artifact) : outcome (gmap string artifact) :=
  let df_features := create_features df in
  let! prepared := prepare_features df_features in
  let X := fst (fst prepared) in
  let label_encoders := snd prepared in
  let xgb_results := evaluate_model xgb_model X_test y_test "XGBoost" in
  let rf_results := evaluate_model rf_model X_test y_test "Random Forest" in
  let names := columns X in
  let sel := select_best xgb_model rf_model xgb_results rf_results in
  Returned (save_artifacts sel label_encoders names files).

End Notebook.

Arguments selection : clear implicits.
Arguments artifact : clear implicits.

(** A concrete regressor for examples: it answers the same number for
    every row. *)
Definition constant_regressor : Regressor R :=
  fun m X => map (fun _ => m) X.

(** ** Specification-side notions *)

(** The number of distinct keys of a sequence. *)
Definition distinct_count (keys : list string) : nat :=
  length (nodup string_dec keys).

(** [s] is the lexicographically sorted list of the distinct keys of
    [keys]: strictly increasing for the lexicographic order on strings, with
    the same members as [keys]. *)
Definition sorted_distinct_keys (keys s : list string) : Prop :=
  StronglySorted String_as_OT.lt s /\ (forall x, In x s <-> In x keys).

(** The delays of the records of [df] whose route is [k], in row order:
    "delay aggregated per route over the entire input record set". *)
Definition route_delays (df : list departure) (k : string) : list R :=
  map delay (List.filter (fun d => String.eqb (route_key d) k) df).

(** Arithmetic mean and sample standard deviation (divisor [n - 1]). *)
Definition average (xs : list R) : R := (Rsum xs / INR (length xs))%R.

Definition sample_std (xs : list R) : R :=
  sqrt (Rsum (map (fun x => (x - average xs) ^ 2)%R xs) / (INR (length xs) - 1)).

(** The statistics row that [route_stats] holds for route [k]. *)
Definition route_stat_for (df : list departure) (k : string) : route_stat :=
  {| rs_route := k;
     rs_mean := mean (route_delays df k);
     rs_std := std (route_delays df k);
     rs_count := count (route_delays df k) |}.

(** The scenario of the specification: three departures from A to B, at
    08:00, 08:00 and 20:00, delayed by 5, 7 and 3 minutes. *)
Definition scenario_departure (h : Z) (minutes : R) : departure :=
  {| train_signature_code := "T"; from_station := "A"; to_station := "B";
     hour := h; delay := minutes;
     from_lat := 0; from_long := 0; to_lat := 0; to_long := 0 |}.

Definition scenario_df : list departure :=
  [ scenario_departure 8 5; scenario_departure 8 7; scenario_departure 20 3 ].

(** The feature matrix [X] after the route column has been replaced by its
    codes. *)
Definition encoded_frame (rows : list feature_row) (codes : list nat) : frame :=
  [ ("hour", map (fun r => SInt (hour (source r))) rows);
    ("hour_sin", map (fun r => SFloat (hour_sin r)) rows);
    ("hour_cos", map (fun r => SFloat (hour_cos r)) rows);
    ("route_distance", map (fun r => SFloat (route_distance r)) rows);
    ("route_avg_delay", map (fun r => of_float (route_avg_delay r)) rows);
    ("route_std_delay", map (fun r => SFloat (route_std_delay r)) rows);
    ("route_count", map (fun r => of_count (route_count r)) rows);
    ("is_rush_hour", map (fun r => SBool (is_rush_hour r)) rows);
    ("is_night", map (fun r => SBool (is_night r)) rows);
    ("route", map (fun n => SInt (Z.of_nat n)) codes) ].

(** ** Cell 24, second half: the sample-prediction loop *)

Definition station_pair_eqb (x y : string * string) : bool :=
  String.eqb (fst x) (fst y) && String.eqb (snd x) (snd y).

(** [DataFrame.drop_duplicates()] on the two station columns: the first
    occurrence of every pair is kept, in row order. *)
Fixpoint drop_duplicates (l : list (string * string)) : list (string * string) :=
  match l with
  | [] => []
  | x :: l' =>
      x :: List.filter (fun y => negb (station_pair_eqb y x)) (drop_duplicates l')
  end.

(** [df_features[['from_station', 'to_station']].drop_duplicates().head(5)]. *)
Definition sample_routes (df_features : list feature_row)
    : list (string * string) :=
  firstn 5 (drop_duplicates
              (map (fun r => (from_station (source r), to_station (source r)))
                   df_features)).

Definition test_hours : list Z := [8; 14; 18]%Z.

(** The test tube (U+1F9EA) and the locomotive (U+1F682), as UTF-8 bytes. *)
Definition test_tube : string :=
  String "240"%char (String "159"%char (String "167"%char
    (String "170"%char EmptyString))).

Definition locomotive : string :=
  String "240"%char (String "159"%char (String "154"%char
    (String "130"%char EmptyString))).

(** The format [{test_hour:02d}]: decimal digits, padded with a zero to
    two characters. *)
Definition two_digits (h : Z) : string :=
  if (String.length (pretty h) <? 2)%nat then "0" ++ pretty h else pretty h.

Section SampleLoop.

Context {model : Type} `{Regressor model}.

(** Python's rendering [{pred:.1f}] of a float is kept abstract. *)
Variable format_minutes : R -> string.

Definition prediction_line (from_st to_st : string) (test_hour : Z) (pred : R)
    : string :=
  locomotive ++ " " ++ from_st ++ " " ++ right_arrow ++ " " ++ to_st
    ++ " at " ++ two_digits test_hour ++ ":00 " ++ right_arrow
    ++ " Predicted delay: " ++ format_minutes pred ++ " minutes".

(** The inner loop over the test hours: the lines printed and whether an
    exception stopped the loop. *)
Fixpoint hours_loop (df_features : list feature_row)
    (label_encoders : gmap string LabelEncoder.t) (names : list string)
    (best : model) (from_st to_st : string) (hours : list Z)
    : list string * outcome unit :=
  match hours with
  | [] => ([], Returned tt)
  | test_hour :: hours' =>
      let call := make_sample_prediction df_features label_encoders names
                    best from_st to_st test_hour in
      match snd call with
      | Raised e => (fst call, Raised e)
      | Returned pred =>
          let line := match pred with
                      | Some p => [prediction_line from_st to_st test_hour p]
                      | None => []
                      end in
          let rest := hours_loop df_features label_encoders names best
                        from_st to_st hours' in
          (fst call ++ line ++ fst rest, snd rest)
      end
  end.

(** The outer loop over the sample routes; an empty line closes every
    route. *)
Fixpoint routes_loop (df_features : list feature_row)
    (label_encoders : gmap string LabelEncoder.t) (names : list string)
    (best : model) (routes : list (string * string))
    : list string * outcome unit :=
  match routes with
  | [] => ([], Returned tt)
  | route :: routes' =>
      let inner := hours_loop df_features label_encoders names best
                     (fst route) (snd route) test_hours in
      match snd inner with
      | Raised e => (fst inner, Raised e)
      | Returned _ =>
          let rest := routes_loop df_features label_encoders names best
                        routes' in
          (fst inner ++ [""] ++ fst rest, snd rest)
      end
  end.

Definition run_sample_predictions (df_features : list feature_row)
    (label_encoders : gmap string LabelEncoder.t) (names : list string)
    (best : model) : list string * outcome unit :=
  let loop := routes_loop df_features label_encoders names best
                (sample_routes df_features) in
  ([String.append test_tube " Testing model with sample predictions:"; ""]
     ++ fst loop,
   snd loop).

End SampleLoop.

(** Row [j] of a frame, as [X.iloc[j]] lists it. *)
Definition frame_row (j : nat) (X : frame) : list scalar :=
  map (fun c => nth j (snd c) SNaN) X.

(** The feature row that [make_sample_prediction] hands to the model for
    the record [r], the hour [h] and the route code [code]. *)
Definition serving_row (r : feature_row) (h : Z) (code : nat) : list scalar :=
  [ SInt h; SFloat (cyclical_sin h); SFloat (cyclical_cos h);
    SFloat (route_distance r); of_float (route_avg_delay r);
    SFloat (route_std_delay r); of_count (route_count r);
    SBool (rush_hour h); SBool (night h); SInt (Z.of_nat code) ].

(** The answer of the model on one feature row, as the helper returns
    it. *)
Definition served_prediction {model : Type} `{Regressor model} (best : model)
    (row : list scalar) : outcome (option R) :=
  match predict best [row] with
  | prediction :: _ => Returned (Some (Rmax 0 prediction))
  | [] => Raised "IndexError"
  end.

(** The encoder fitted by cell 11 on the feature rows. *)
Definition route_encoders (df : list departure) : gmap string LabelEncoder.t :=
  {[ "route_encoder" := LabelEncoder.fit (map route (create_features df)) ]}.

(** What the loop prints for one route: a line per test hour, then an
    empty line. *)
Definition route_block (format_minutes : R -> string)
    (p : string -> string -> Z -> R) (ab : string * string) : list string :=
  map (fun h => prediction_line format_minutes (fst ab) (snd ab) h
                  (p (fst ab) (snd ab) h)) test_hours ++ [""].

(** A station code without the separator character of the route key. *)
Definition no_underscore (code : string) : Prop :=
  ~ In "_"%char (list_ascii_of_string code).

(** * Properties *)

(** ** The order on route keys *)

Lemma str_lt_trans (a b c : string) : str_lt a b -> str_lt b c -> str_lt a c.
Proof.
  unfold str_lt. intros Hab Hbc.
  apply String_as_OT.cmp_lt in Hab. apply String_as_OT.cmp_lt in Hbc.
  apply String_as_OT.cmp_lt. eapply String_as_OT.lt_trans; eassumption.
Qed.

Lemma compare_refl (a : string) : String.compare a a = Eq.
Proof. apply String_as_OT.cmp_eq. reflexivity. Qed.

Lemma str_lt_irrefl (a : string) : ~ str_lt a a.
Proof. unfold str_lt. rewrite compare_refl. discriminate. Qed.

Lemma compare_Gt_lt (a b : string) : String.compare a b = Gt -> str_lt b a.
Proof.
  unfold str_lt. intros Hab. rewrite String.compare_antisym, Hab. reflexivity.
Qed.

Lemma str_lt_asym (a b : string) : str_lt a b -> ~ str_lt b a.
Proof. intros Hab Hba. exact (str_lt_irrefl a (str_lt_trans a b a Hab Hba)). Qed.

(** ** [sorted_set] yields the sorted list of the distinct values *)

Lemma in_insert_sorted (x k : string) (l : list string) :
  In x (insert_sorted k l) <-> x = k \/ In x l.
Proof.
  induction l as [|c l IH]; simpl.
  - intuition.
  - destruct (String.compare k c) eqn:E; simpl.
    + apply String.compare_eq_iff in E. subst c. intuition.
    + intuition.
    + rewrite IH. intuition.
Qed.

Lemma in_sorted_set (x : string) (values : list string) :
  In x (sorted_set values) <-> In x values.
Proof.
  induction values as [|v values IH]; simpl.
  - reflexivity.
  - rewrite in_insert_sorted, IH. intuition.
Qed.

Lemma insert_sorted_sorted (k : string) (l : list string) :
  StronglySorted str_lt l -> StronglySorted str_lt (insert_sorted k l).
Proof.
  induction 1 as [|c l Hs IH Hc]; simpl.
  - constructor; [constructor | constructor].
  - destruct (String.compare k c) eqn:E.
    + constructor; assumption.
    + constructor.
      * constructor; assumption.
      * constructor; [exact E|].
        rewrite List.Forall_forall in *. intros y Hy.
        eapply str_lt_trans; [exact E | auto].
    + constructor; [exact IH|].
      rewrite List.Forall_forall in *. intros y Hy.
      apply in_insert_sorted in Hy. destruct Hy as [->|Hy].
      * apply compare_Gt_lt; exact E.
      * auto.
Qed.

Lemma sorted_set_sorted (values : list string) :
  StronglySorted str_lt (sorted_set values).
Proof.
  induction values as [|v values IH]; simpl.
  - constructor.
  - apply insert_sorted_sorted; exact IH.
Qed.

Lemma sorted_NoDup (l : list string) : StronglySorted str_lt l -> List.NoDup l.
Proof.
  induction 1 as [|c l Hs IH Hc]; constructor; [|exact IH].
  intros Hin. rewrite List.Forall_forall in Hc.
  exact (str_lt_irrefl c (Hc c Hin)).
Qed.

(** A strictly sorted list is determined by its elements. *)
Lemma sorted_ext (l1 l2 : list string) :
  StronglySorted str_lt l1 -> StronglySorted str_lt l2 ->
  (forall x, In x l1 <-> In x l2) -> l1 = l2.
Proof.
  intros H1. revert l2.
  induction H1 as [|a l1 Hs1 IH Ha]; intros l2 H2 Hext.
  - destruct l2 as [|b l2]; [reflexivity|].
    exfalso. apply (Hext b). left; reflexivity.
  - destruct H2 as [|b l2 Hs2 Hb].
    + exfalso. apply (Hext a). left; reflexivity.
    + rewrite List.Forall_forall in Ha, Hb.
      assert (a = b) as ->.
      { destruct (proj1 (Hext a) (or_introl eq_refl)) as [E|Hin]; [congruence|].
        destruct (proj2 (Hext b) (or_introl eq_refl)) as [E|Hin']; [congruence|].
        exfalso. exact (str_lt_asym _ _ (Hb a Hin) (Ha b Hin')). }
      f_equal. apply IH; [exact Hs2|].
      intros x. split; intros Hx.
      * destruct (proj1 (Hext x) (or_intror Hx)) as [E|Hin]; [|exact Hin].
        subst x. exfalso. exact (str_lt_irrefl _ (Ha b Hx)).
      * destruct (proj2 (Hext x) (or_intror Hx)) as [E|Hin]; [|exact Hin].
        subst x. exfalso. exact (str_lt_irrefl _ (Hb b Hx)).
Qed.

Lemma sorted_set_ext (values values' : list string) :
  (forall x, In x values <-> In x values') ->
  sorted_set values = sorted_set values'.
Proof.
  intros Hext. apply sorted_ext; try apply sorted_set_sorted.
  intros x. rewrite !in_sorted_set. apply Hext.
Qed.

(** ** [index_of] *)

Lemma index_of_nth (k : string) (l : list string) (i : nat) :
  index_of k l = Some i -> nth_error l i = Some k.
Proof.
  revert i. induction l as [|c l IH]; simpl; intros i Hi; [discriminate|].
  destruct (String.eqb_spec k c) as [->|Hne].
  - injection Hi as <-. reflexivity.
  - destruct (index_of k l) as [j|]; simpl in Hi; [|discriminate].
    injection Hi as <-. simpl. apply IH. reflexivity.
Qed.

Lemma index_of_In (k : string) (l : list string) :
  In k l -> exists i, index_of k l = Some i.
Proof.
  induction l as [|c l IH]; simpl; [tauto|]. intros Hin.
  destruct (String.eqb_spec k c) as [->|Hne]; [eauto|].
  destruct Hin as [E|Hin]; [congruence|].
  destruct (IH Hin) as [i ->]. simpl. eauto.
Qed.

Lemma index_of_NoDup_nth (k : string) (l : list string) (i : nat) :
  List.NoDup l -> nth_error l i = Some k -> index_of k l = Some i.
Proof.
  intros Hnd. revert i. induction Hnd as [|c l Hc Hnd IH]; intros i Hi.
  - destruct i; discriminate.
  - simpl. destruct i as [|i]; simpl in Hi.
    + injection Hi as ->. rewrite String.eqb_refl. reflexivity.
    + destruct (String.eqb_spec k c) as [->|Hne].
      * exfalso. apply Hc. eapply nth_error_In; exact Hi.
      * rewrite (IH i Hi). reflexivity.
Qed.

(** ** Running a list of fallible calls *)

Lemma traverse_Returned {A B} (f : A -> outcome B) (l : list A) :
  (forall a, In a l -> exists b, f a = Returned b) ->
  exists bs, traverse f l = Returned bs /\ Forall2 (fun a b => f a = Returned b) l bs.
Proof.
  induction l as [|a l IH]; simpl; intros Hf.
  - exists []. split; [reflexivity | constructor].
  - destruct (Hf a (or_introl eq_refl)) as [b Hb].
    destruct IH as [bs [Hbs HF]]; [intros; apply Hf; right; assumption|].
    exists (b :: bs). rewrite Hb, Hbs. simpl. split; [reflexivity|].
    constructor; assumption.
Qed.

Lemma Forall2_nth_error {A B} (P : A -> B -> Prop) (l : list A) (m : list B) :
  Forall2 P l m ->
  forall j a, nth_error l j = Some a -> exists b, nth_error m j = Some b /\ P a b.
Proof.
  induction 1 as [|x y l m Hxy HF IH]; intros j a Hj.
  - destruct j; discriminate.
  - destruct j as [|j]; simpl in *.
    + injection Hj as <-. eauto.
    + eauto.
Qed.

(** ** The fitted encoder *)

Lemma classes_length (keys : list string) :
  length (LabelEncoder.classes_ (LabelEncoder.fit keys)) = distinct_count keys.
Proof.
  unfold distinct_count. simpl. apply Permutation_length.
  apply Permutation.NoDup_Permutation.
  - apply sorted_NoDup, sorted_set_sorted.
  - apply List.NoDup_nodup.
  - intros x. rewrite in_sorted_set, List.nodup_In. reflexivity.
Qed.

Lemma encode_fit_In (keys : list string) (k : string) :
  In k keys ->
  exists i, LabelEncoder.encode (LabelEncoder.fit keys) k = Returned i
            /\ nth_error (sorted_set keys) i = Some k
            /\ (i < distinct_count keys)%nat.
Proof.
  intros Hin. unfold LabelEncoder.encode. simpl.
  destruct (index_of_In k (sorted_set keys)) as [i Hi].
  { apply in_sorted_set; exact Hin. }
  rewrite Hi. exists i. split; [reflexivity|].
  pose proof (index_of_nth _ _ _ Hi) as Hn. split; [exact Hn|].
  rewrite <- classes_length. simpl.
  apply nth_error_Some. rewrite Hn. discriminate.
Qed.

Lemma encode_Returned_nth (le : LabelEncoder.t) (k : string) (i : nat) :
  LabelEncoder.encode le k = Returned i ->
  nth_error (LabelEncoder.classes_ le) i = Some k.
Proof.
  unfold LabelEncoder.encode.
  destruct (index_of k (LabelEncoder.classes_ le)) as [j|] eqn:E; [|discriminate].
  intros [= <-]. apply index_of_nth; exact E.
Qed.

Lemma encode_injective (le : LabelEncoder.t) (k1 k2 : string) (i : nat) :
  LabelEncoder.encode le k1 = Returned i ->
  LabelEncoder.encode le k2 = Returned i -> k1 = k2.
Proof.
  intros H1 H2. apply encode_Returned_nth in H1. apply encode_Returned_nth in H2.
  congruence.
Qed.

Lemma fit_transform_Returned (keys : list string) :
  exists codes,
    snd (LabelEncoder.fit_transform keys) = Returned codes
    /\ Forall2 (fun k c => LabelEncoder.encode (LabelEncoder.fit keys) k = Returned c)
               keys codes.
Proof.
  unfold LabelEncoder.fit_transform, LabelEncoder.transform. simpl snd.
  apply traverse_Returned. intros k Hk.
  destruct (encode_fit_In keys k Hk) as [i [Hi _]]. eauto.
Qed.

Section NotebookFacts.

Context {model : Type} `{Regressor model}.
Variables mean_squared_error mean_absolute_error r2_score : list R -> list R -> R.
Variable float_str : R -> string.

(** Cell 11 always succeeds on the output of the feature builder's row
    type: [X] has the ten feature columns with the route column encoded,
    and [label_encoders] holds the fitted route encoder. *)
Lemma prepare_features_spec (rows : list feature_row) :
  exists codes,
    snd (LabelEncoder.fit_transform (map route rows)) = Returned codes /\
    prepare_features float_str rows =
      Returned (encoded_frame rows codes,
                map (fun r => delay (source r)) rows,
                {[ "route_encoder" := LabelEncoder.fit (map route rows) ]}).
Proof.
  destruct (fit_transform_Returned (map route rows)) as [codes [Hc _]].
  exists codes. split; [exact Hc|].
  unfold prepare_features.
  cbn [select_columns feature_columns traverse frame_of_features get_column
       String.eqb Ascii.eqb Bool.eqb obind].
  cbn [categorical_columns encode_columns encode_column fst snd get_column
       String.eqb Ascii.eqb Bool.eqb obind].
  rewrite map_map. cbn [astype_str].
  change (map (fun x : feature_row => route x) rows) with (map route rows).
  rewrite Hc.
  cbn [obind set_column String.eqb Ascii.eqb Bool.eqb fst snd
       LabelEncoder.fit_transform].
  reflexivity.
Qed.

Lemma load_saved_encoders (sel : selection model)
    (label_encoders : gmap string LabelEncoder.t) (names : list string)
    (files : gmap string (artifact model)) :
  load_encoders (save_artifacts sel label_encoders names files)
  = Returned label_encoders.
Proof.
  unfold load_encoders, save_artifacts.
  rewrite lookup_insert_ne by discriminate.
  rewrite lookup_insert_eq. reflexivity.
Qed.

Lemma encode_route_singleton (le : LabelEncoder.t) (k : string) (c : nat) :
  LabelEncoder.encode le k = Returned c ->
  encode_route {[ "route_encoder" := le ]} k = Returned c.
Proof.
  intros Hc. unfold encode_route. rewrite lookup_singleton_eq.
  unfold LabelEncoder.transform. simpl. rewrite Hc. reflexivity.
Qed.

End NotebookFacts.

Section EncoderClaims.

Context {model : Type} `{Regressor model}.
Variable float_str : R -> string.

(** C4. Fitting the route encoder on the route keys of any feature rows
    succeeds; every key receives a code below the number of distinct keys,
    two keys with the same code are the same key, every code below the
    number of distinct keys is taken, and looking a key up in the encoder
    loaded back from the saved [encoders.pkl] returns the code that the
    training matrix holds for it. *)
Theorem encoder_round_trip (rows : list feature_row) (sel : selection model)
    (files : gmap string (artifact model)) :
  let keys := map route rows in
  exists X y label_encoders codes,
    prepare_features float_str rows = Returned (X, y, label_encoders)
    /\ get_column "route" X = Some (map (fun n => SInt (Z.of_nat n)) codes)
    /\ Forall2 (fun k c =>
         (c < distinct_count keys)%nat
         /\ (let! saved := load_encoders
               (save_artifacts sel label_encoders (columns X) files) in
             encode_route saved k) = Returned c) keys codes
    /\ (forall j1 j2 k1 k2 c,
         nth_error keys j1 = Some k1 -> nth_error keys j2 = Some k2 ->
         nth_error codes j1 = Some c -> nth_error codes j2 = Some c ->
         k1 = k2)
    /\ (forall c, (c < distinct_count keys)%nat ->
         exists k, In k keys /\ encode_route label_encoders k = Returned c).
Proof.
  intros keys.
  destruct (prepare_features_spec float_str rows) as [codes [Hc Hp]].
  destruct (fit_transform_Returned keys) as [codes' [Hc' HF]].
  fold keys in Hc. rewrite Hc in Hc'. injection Hc' as <-.
  exists (encoded_frame rows codes), (map (fun r => delay (source r)) rows),
    {[ "route_encoder" := LabelEncoder.fit keys ]}, codes.
  split; [exact Hp|]. split; [reflexivity|]. split; [|split].
  - rewrite load_saved_encoders. cbn [obind].
    clear Hp Hc. clearbody keys.
    eapply List.Forall2_impl; [|exact HF]. cbv beta. intros k c Hkc. split.
    + pose proof (encode_Returned_nth _ _ _ Hkc) as Hn.
      rewrite <- classes_length. apply nth_error_Some.
      rewrite Hn. discriminate.
    + apply encode_route_singleton; exact Hkc.
  - intros j1 j2 k1 k2 c Hk1 Hk2 Hc1 Hc2.
    destruct (Forall2_nth_error _ _ _ HF j1 k1 Hk1) as [c1 [Hn1 He1]].
    destruct (Forall2_nth_error _ _ _ HF j2 k2 Hk2) as [c2 [Hn2 He2]].
    rewrite Hc1 in Hn1. rewrite Hc2 in Hn2.
    injection Hn1 as <-. injection Hn2 as <-.
    eapply encode_injective; eassumption.
  - clear Hp Hc. clearbody keys.
    intros c Hlt. rewrite <- classes_length in Hlt. simpl in Hlt.
    destruct (nth_error (sorted_set keys) c) as [k|] eqn:Hn.
    + exists k. split.
      * apply in_sorted_set. eapply nth_error_In; exact Hn.
      * apply encode_route_singleton. unfold LabelEncoder.encode. simpl.
        rewrite (index_of_NoDup_nth k (sorted_set keys) c);
          [reflexivity | apply sorted_NoDup, sorted_set_sorted | exact Hn].
    + apply nth_error_None in Hn. lia.
Qed.

End EncoderClaims.

Lemma sorted_lexicographic (l : list string) :
  StronglySorted String_as_OT.lt l <-> StronglySorted str_lt l.
Proof.
  split; intros Hs; induction Hs as [|a l Hl IH Ha]; constructor;
    try exact IH; rewrite List.Forall_forall in *; intros x Hx;
    apply String_as_OT.cmp_lt; apply Ha; exact Hx.
Qed.

Lemma sorted_set_is_sorted_distinct (keys : list string) :
  sorted_distinct_keys keys (sorted_set keys).
Proof.
  split.
  - apply sorted_lexicographic, sorted_set_sorted.
  - intros x. apply in_sorted_set.
Qed.

(** C10. The classes of the fitted encoder are the lexicographically sorted
    list of the distinct keys; the code of every fitted key is its index in
    that list (in any list [s] that is the sorted list of the distinct
    keys); and two sequences with the same set of keys, whatever the order
    and multiplicity of their rows, are fitted to the same encoder. *)
Theorem encoder_codes_are_sorted_indices (keys : list string) (k : string) :
  In k keys ->
  sorted_distinct_keys keys (LabelEncoder.classes_ (LabelEncoder.fit keys))
  /\ (forall s, sorted_distinct_keys keys s ->
        exists i, LabelEncoder.encode (LabelEncoder.fit keys) k = Returned i
                  /\ nth_error s i = Some k /\ index_of k s = Some i)
  /\ (forall keys', (forall x, In x keys' <-> In x keys) ->
        LabelEncoder.fit keys' = LabelEncoder.fit keys).
Proof.
  intros Hk. split; [apply sorted_set_is_sorted_distinct|]. split.
  - intros s [Hs Hmem]. apply sorted_lexicographic in Hs.
    assert (Heq : sorted_set keys = s).
    { apply sorted_ext; [apply sorted_set_sorted | exact Hs |].
      intros x. rewrite in_sorted_set. symmetry. apply Hmem. }
    destruct (encode_fit_In keys k Hk) as [i [Hi [Hn _]]].
    exists i. rewrite <- Heq. split; [exact Hi|]. split; [exact Hn|].
    apply index_of_NoDup_nth; [apply sorted_NoDup, sorted_set_sorted | exact Hn].
  - intros keys' Hext. unfold LabelEncoder.fit. f_equal.
    apply sorted_set_ext; exact Hext.
Qed.

Lemma encoder_codes_are_sorted_indices_witness :
  In "STO_GOT" ["STO_GOT"; "GOT_MAL"; "STO_GOT"]
  /\ LabelEncoder.classes_ (LabelEncoder.fit ["STO_GOT"; "GOT_MAL"; "STO_GOT"])
     = ["GOT_MAL"; "STO_GOT"]
  /\ LabelEncoder.encode
       (LabelEncoder.fit ["STO_GOT"; "GOT_MAL"; "STO_GOT"]) "STO_GOT"
     = Returned 1%nat
  /\ LabelEncoder.fit ["GOT_MAL"; "STO_GOT"; "GOT_MAL"]
     = LabelEncoder.fit ["STO_GOT"; "GOT_MAL"; "STO_GOT"].
Proof.
  assert (Hk : In "STO_GOT" ["STO_GOT"; "GOT_MAL"; "STO_GOT"]).
  { simpl. tauto. }
  destruct (encoder_codes_are_sorted_indices _ _ Hk) as [Hs [Hidx Hset]].
  destruct (Hidx _ Hs) as [i [Hi [_ Hpos]]].
  split; [exact Hk|]. split; [reflexivity|]. split.
  - rewrite Hi. vm_compute in Hpos. injection Hpos as <-. reflexivity.
  - apply Hset. intros x. simpl. tauto.
Defined.

(** ** The feature builder *)

Lemma filter_map_unique {B} (g : string -> B) (key : B -> string)
    (l : list string) (k : string) :
  (forall x, key (g x) = x) -> List.NoDup l -> In k l ->
  List.filter (fun b => String.eqb (key b) k) (map g l) = [g k].
Proof.
  intros Hkey Hnd. induction Hnd as [|c l Hc Hnd IH]; simpl; [tauto|].
  intros Hin. rewrite Hkey.
  destruct (String.eqb_spec c k) as [->|Hne].
  - f_equal. clear IH Hin Hnd. induction l as [|c l IH]; simpl; [reflexivity|].
    rewrite Hkey. destruct (String.eqb_spec c k) as [->|Hne].
    + exfalso. apply Hc. left; reflexivity.
    + apply IH. intros Hin. apply Hc. right; exact Hin.
  - destruct Hin as [E|Hin]; [congruence|]. apply IH; exact Hin.
Qed.

Lemma group_is_route_delays (df : list departure) (k : string) :
  map snd (List.filter (fun kv => String.eqb (fst kv) k)
             (map (fun d => (route_key d, delay d)) df))
  = route_delays df k.
Proof.
  unfold route_delays. induction df as [|d df IH]; simpl; [reflexivity|].
  destruct (String.eqb (route_key d) k); simpl; rewrite IH; reflexivity.
Qed.

Lemma route_stats_of_eq (df : list departure) :
  route_stats_of df
  = map (route_stat_for df) (sorted_set (map route_key df)).
Proof.
  unfold route_stats_of, agg_mean_std_count, groupby.
  rewrite !map_map. simpl. apply map_ext. intros k.
  unfold route_stat_for. simpl. rewrite group_is_route_delays. reflexivity.
Qed.

(** The left merge pairs every record with the statistics of its route. *)
Lemma merge_route_stats (df : list departure) :
  merge_left route_key rs_route df (route_stats_of df)
  = map (fun d => (d, Some (route_stat_for df (route_key d)))) df.
Proof.
  rewrite route_stats_of_eq. unfold merge_left.
  assert (Hall : forall d, In d df ->
            List.filter (fun b => String.eqb (rs_route b) (route_key d))
              (map (route_stat_for df) (sorted_set (map route_key df)))
            = [route_stat_for df (route_key d)]).
  { intros d Hd. apply filter_map_unique.
    - reflexivity.
    - apply sorted_NoDup, sorted_set_sorted.
    - apply in_sorted_set, in_map; exact Hd. }
  revert Hall. generalize (map (route_stat_for df) (sorted_set (map route_key df))).
  generalize (route_stat_for df). intros stat stats.
  induction df as [|d df IH]; simpl; intros Hall; [reflexivity|].
  rewrite (Hall d (or_introl eq_refl)). simpl. f_equal.
  apply IH. intros d' Hd'. apply Hall. right; exact Hd'.
Qed.

Lemma create_features_eq (df : list departure) :
  create_features df
  = map (fun d => featurize (d, Some (route_stat_for df (route_key d)))) df.
Proof.
  unfold create_features. rewrite merge_route_stats, map_map. reflexivity.
Qed.

Lemma create_features_In (df : list departure) (row : feature_row) :
  In row (create_features df) ->
  exists d, In d df
            /\ row = featurize (d, Some (route_stat_for df (route_key d))).
Proof.
  rewrite create_features_eq, in_map_iff. intros [d [E Hd]]. eauto.
Qed.

(** Every input record yields exactly one output row, in input order. *)
Lemma create_features_sources (df : list departure) :
  map source (create_features df) = df.
Proof.
  rewrite create_features_eq, map_map. simpl. apply map_id.
Qed.

Lemma route_delays_nonempty (df : list departure) (d : departure) :
  In d df -> (1 <= length (route_delays df (route_key d)))%nat.
Proof.
  intros Hd. unfold route_delays. rewrite length_map.
  assert (Hin : In d (List.filter (fun d' => String.eqb (route_key d') (route_key d)) df)).
  { apply filter_In. split; [exact Hd | apply String.eqb_refl]. }
  destruct (List.filter _ df); [destruct Hin | simpl; lia].
Qed.

Lemma mean_average (xs : list R) :
  (1 <= length xs)%nat -> mean xs = Some (average xs).
Proof. destruct xs; simpl; [lia | reflexivity]. Qed.

Lemma std_single (xs : list R) : length xs = 1%nat -> std xs = None.
Proof.
  intros Hlen. unfold std. destruct (mean xs); [|reflexivity].
  rewrite Hlen. reflexivity.
Qed.

Lemma std_sample_std (xs : list R) :
  (2 <= length xs)%nat -> std xs = Some (sample_std xs).
Proof.
  intros Hlen. unfold std. rewrite mean_average by lia.
  destruct (Nat.leb_spec (length xs) 1); [lia|].
  unfold sample_std. rewrite minus_INR by lia. reflexivity.
Qed.

Lemma scenario_route_delays :
  route_delays scenario_df "A_B" = [5%R; 7%R; 3%R].
Proof. reflexivity. Qed.

Lemma scenario_average : average [5; 7; 3]%R = 5%R.
Proof. unfold average. simpl. lra. Qed.

Lemma scenario_sample_std : sample_std [5; 7; 3]%R = 2%R.
Proof.
  unfold sample_std. rewrite scenario_average.
  match goal with |- sqrt ?x = _ => replace x with (2 * 2)%R end.
  - apply sqrt_square. lra.
  - simpl. lra.
Qed.

(** C3. Every row of the feature builder's output carries the mean, the
    count and the sample standard deviation of the delays of all input
    records of its route; the standard deviation is exactly 0 when the
    route has one observation; and on the three-departure scenario the rows
    of route "A_B" have mean 5, count 3 and the sample standard deviation
    of [5; 7; 3]. *)
Theorem route_statistics (df : list departure) (row : feature_row) :
  In row (create_features df) ->
  let ds := route_delays df (route row) in
  (1 <= length ds)%nat
  /\ route_avg_delay row = Some (average ds)
  /\ route_count row = Some (length ds)
  /\ (length ds = 1%nat -> route_std_delay row = 0%R)
  /\ ((2 <= length ds)%nat -> route_std_delay row = sample_std ds)
  /\ (df = scenario_df ->
        route row = "A_B"
        /\ route_avg_delay row = Some 5%R
        /\ route_count row = Some 3%nat
        /\ route_std_delay row = sample_std [5; 7; 3]%R).
Proof.
  intros Hin. destruct (create_features_In df row Hin) as [d [Hd ->]].
  cbn [featurize fst snd route route_avg_delay route_count route_std_delay
       route_stat_for rs_mean rs_std rs_count option_map].
  pose proof (route_delays_nonempty df d Hd) as Hlen.
  cbv zeta. split; [exact Hlen|]. split; [apply mean_average; exact Hlen|].
  split; [reflexivity|]. split; [|split].
  - intros H1. rewrite std_single by exact H1. reflexivity.
  - intros H2. rewrite std_sample_std by exact H2. reflexivity.
  - intros ->.
    assert (Hk : route_key d = "A_B").
    { destruct Hd as [<-|[<-|[<-|[]]]]; reflexivity. }
    rewrite Hk, scenario_route_delays. split; [reflexivity|].
    split; [rewrite mean_average by (simpl; lia); rewrite scenario_average; reflexivity|].
    split; [reflexivity|].
    rewrite std_sample_std by (simpl; lia). reflexivity.
Qed.

Lemma route_statistics_witness :
  let row := featurize (scenario_departure 8 5,
                        Some (route_stat_for scenario_df "A_B")) in
  In row (create_features scenario_df)
  /\ route_avg_delay row = Some 5%R
  /\ route_count row = Some 3%nat
  /\ route_std_delay row = 2%R.
Proof.
  intros row.
  assert (Hin : In row (create_features scenario_df)).
  { rewrite create_features_eq. left. reflexivity. }
  destruct (route_statistics scenario_df row Hin) as (_ & _ & _ & _ & _ & Hs).
  destruct (Hs eq_refl) as (_ & Ha & Hc & Hstd).
  rewrite scenario_sample_std in Hstd.
  split; [exact Hin|]. split; [exact Ha|]. split; [exact Hc | exact Hstd].
Defined.

Lemma rush_hour_true (h : Z) :
  rush_hour h = true <-> (7 <= h <= 9 \/ 17 <= h <= 19)%Z.
Proof.
  unfold rush_hour.
  rewrite Bool.orb_true_iff, !Bool.andb_true_iff, !Z.geb_le, !Z.leb_le. lia.
Qed.

Lemma night_true (h : Z) : night h = true <-> (h <= 6 \/ 22 <= h)%Z.
Proof.
  unfold night. rewrite Bool.orb_true_iff, Z.geb_le, Z.leb_le. lia.
Qed.

(** C6. In every row produced by the feature builder, [is_rush_hour] is
    true exactly when the hour is in [7, 9] or in [17, 19], and [is_night]
    is true exactly when the hour is at most 6 or at least 22. *)
Theorem peak_hour_indicators (df : list departure) (row : feature_row) :
  In row (create_features df) ->
  (is_rush_hour row = true <->
     (7 <= hour (source row) <= 9 \/ 17 <= hour (source row) <= 19)%Z)
  /\ (is_night row = true <->
        (hour (source row) <= 6 \/ 22 <= hour (source row))%Z).
Proof.
  intros Hin. destruct (create_features_In df row Hin) as [d [_ ->]].
  cbn [featurize fst snd is_rush_hour is_night source].
  split; [apply rush_hour_true | apply night_true].
Qed.

Lemma peak_hour_indicators_witness :
  let row := featurize (scenario_departure 20 3,
                        Some (route_stat_for scenario_df "A_B")) in
  In row (create_features scenario_df)
  /\ is_rush_hour row = false /\ is_night row = false.
Proof.
  intros row.
  assert (Hin : In row (create_features scenario_df)).
  { rewrite create_features_eq. right. right. left. reflexivity. }
  destruct (peak_hour_indicators scenario_df row Hin) as [Hr Hn].
  split; [exact Hin|]. split.
  - destruct (is_rush_hour row) eqn:E; [|reflexivity].
    exfalso. destruct (proj1 Hr eq_refl) as [Hh|Hh]; simpl in Hh; lia.
  - destruct (is_night row) eqn:E; [|reflexivity].
    exfalso. destruct (proj1 Hn eq_refl) as [Hh|Hh]; simpl in Hh; lia.
Defined.

(** C7. In every row produced by the feature builder whose hour lies in
    [0, 23], [is_rush_hour] and [is_night] are not both true. *)
Theorem rush_hour_night_exclusive (df : list departure) (row : feature_row) :
  In row (create_features df) ->
  (0 <= hour (source row) <= 23)%Z ->
  ~ (is_rush_hour row = true /\ is_night row = true).
Proof.
  intros Hin _. destruct (create_features_In df row Hin) as [d [_ ->]].
  cbn [featurize fst snd is_rush_hour is_night source].
  rewrite rush_hour_true, night_true. lia.
Qed.

Lemma rush_hour_night_exclusive_witness :
  let row := featurize (scenario_departure 8 5,
                        Some (route_stat_for scenario_df "A_B")) in
  In row (create_features scenario_df)
  /\ (0 <= hour (source row) <= 23)%Z
  /\ is_rush_hour row = true
  /\ is_night row <> true.
Proof.
  intros row.
  assert (Hin : In row (create_features scenario_df)).
  { rewrite create_features_eq. left. reflexivity. }
  assert (Hh : (0 <= hour (source row) <= 23)%Z) by (simpl; lia).
  assert (Hr : is_rush_hour row = true) by reflexivity.
  split; [exact Hin|]. split; [exact Hh|]. split; [exact Hr|].
  intros Hn. exact (rush_hour_night_exclusive scenario_df row Hin Hh (conj Hr Hn)).
Defined.

(** ** Evaluation, selection and persistence *)

Section PipelineClaims.

Context {model : Type} `{Regressor model}.
Variables mean_squared_error mean_absolute_error r2_score : list R -> list R -> R.
Variable float_str : R -> string.

Lemma clamp_nonneg (ps : list R) :
  Forall (fun p => (0 <= p)%R) (map (fun p => Rmax p 0) ps).
Proof.
  induction ps as [|p ps IH]; simpl; constructor; [apply Rmax_r | exact IH].
Qed.

(** C2. Whatever the model predicts, the evaluator replaces every
    prediction [p] by [max p 0] before anything else: the predictions it
    returns are the clamped ones, none of them is negative, and RMSE, MAE
    and R2 are computed from the clamped predictions. *)
Theorem evaluate_model_clamps (m : model) (X_test : list (list scalar))
    (y_test : list R) (model_name : string) :
  let clamped := map (fun p => Rmax p 0) (predict m X_test) in
  let res := evaluate_model mean_squared_error mean_absolute_error r2_score
               m X_test y_test model_name in
  predictions res = clamped
  /\ Forall (fun p => (0 <= p)%R) (predictions res)
  /\ length (predictions res) = length (predict m X_test)
  /\ rmse res = sqrt (mean_squared_error y_test clamped)
  /\ mae res = mean_absolute_error y_test clamped
  /\ r2 res = r2_score y_test clamped.
Proof.
  cbv zeta. unfold evaluate_model. cbn [predictions rmse mae r2].
  split; [reflexivity|]. split; [apply clamp_nonneg|].
  split; [apply length_map|]. repeat split; reflexivity.
Qed.

(** C1 (amended). The selector picks XGBoost exactly when its RMSE is
    strictly lower than the random forest's; it picks the random forest
    when that one's RMSE is strictly lower and also when the two are
    equal. Between RMSE 4.2 and 3.9 it picks the model with 3.9,
    whichever of the two models has it. *)
Theorem select_best_lower_rmse (xgb_model rf_model : model)
    (xgb_results rf_results : results) :
  let sel := select_best xgb_model rf_model xgb_results rf_results in
  ((rmse xgb_results < rmse rf_results)%R ->
     sel = {| best_model := xgb_model; best_model_name := "XGBoost";
              best_results := xgb_results |})
  /\ ((rmse rf_results < rmse xgb_results)%R ->
        sel = {| best_model := rf_model; best_model_name := "Random Forest";
                 best_results := rf_results |})
  /\ (rmse xgb_results = rmse rf_results ->
        sel = {| best_model := rf_model; best_model_name := "Random Forest";
                 best_results := rf_results |})
  /\ (rmse xgb_results = 4.2%R -> rmse rf_results = 3.9%R ->
        best_model sel = rf_model /\ rmse (best_results sel) = 3.9%R)
  /\ (rmse xgb_results = 3.9%R -> rmse rf_results = 4.2%R ->
        best_model sel = xgb_model /\ rmse (best_results sel) = 3.9%R).
Proof.
  cbv zeta. unfold select_best.
  destruct (Rlt_dec (rmse xgb_results) (rmse rf_results)) as [Hlt|Hge].
  - split; [reflexivity|]. split; [intros; lra|]. split; [intros; lra|].
    split; [intros; lra|]. intros Hx _. split; [reflexivity | exact Hx].
  - split; [intros; lra|]. split; [reflexivity|]. split; [reflexivity|].
    split; [|intros; lra]. intros _ Hr. split; [reflexivity | exact Hr].
Qed.

Lemma filter_no_record (df : list departure) (g : departure -> feature_row)
    (a b : string) :
  (forall d, source (g d) = d) ->
  (forall d, In d df -> ~ (from_station d = a /\ to_station d = b)) ->
  List.filter (fun r => String.eqb (from_station (source r)) a
                        && String.eqb (to_station (source r)) b)
              (map g df) = [].
Proof.
  intros Hg. induction df as [|d df IH]; simpl; intros Hno; [reflexivity|].
  rewrite Hg.
  destruct (String.eqb_spec (from_station d) a) as [Ha|Ha];
    destruct (String.eqb_spec (to_station d) b) as [Hb|Hb]; simpl;
    try (apply IH; intros d' Hd'; apply Hno; right; exact Hd').
  exfalso. apply (Hno d (or_introl eq_refl)). split; assumption.
Qed.

(** C8. When no loaded record goes from the requested origin to the
    requested destination, the sample prediction prints the single line
    "No data found for route ..." and returns [None]: it raises nothing
    and returns no number, 0 included. *)
Theorem missing_route_returns_none (df : list departure)
    (label_encoders : gmap string LabelEncoder.t) (names : list string)
    (best : model) (origin destination : string) (h : Z) :
  (forall d, In d df ->
     ~ (from_station d = origin /\ to_station d = destination)) ->
  let run := make_sample_prediction (create_features df) label_encoders
               names best origin destination h in
  run = ([no_data_message origin destination], Returned None)
  /\ (forall e, snd run <> Raised e)
  /\ (forall x, snd run <> Returned (Some x)).
Proof.
  intros Hno. cbv zeta. unfold make_sample_prediction.
  rewrite create_features_eq.
  rewrite (filter_no_record df _ origin destination); [|reflexivity|exact Hno].
  split; [reflexivity|]. split; intros; discriminate.
Qed.

(** C9. A run of the notebook succeeds and leaves in [model_info.json] a
    record whose feature-name list is the ten columns hour, hour_sin,
    hour_cos, route_distance, route_avg_delay, route_std_delay,
    route_count, is_rush_hour, is_night, route, in this order, whose model
    type is the selected model's label and whose performance entries are
    the selected model's RMSE, MAE and R2. *)
Theorem metadata_record (df : list departure) (xgb_model rf_model : model)
    (X_test : list (list scalar)) (y_test : list R)
    (files : gmap string (artifact model)) :
  let evaluate := evaluate_model mean_squared_error mean_absolute_error r2_score in
  let sel := select_best xgb_model rf_model
               (evaluate xgb_model X_test y_test "XGBoost")
               (evaluate rf_model X_test y_test "Random Forest") in
  exists files' info,
    notebook_run mean_squared_error mean_absolute_error r2_score float_str
      df xgb_model rf_model X_test y_test files = Returned files'
    /\ files' !! "model_info.json" = Some (Json_info info)
    /\ feature_names info =
         [ "hour"; "hour_sin"; "hour_cos"; "route_distance";
           "route_avg_delay"; "route_std_delay"; "route_count";
           "is_rush_hour"; "is_night"; "route" ]
    /\ length (feature_names info) = 10%nat
    /\ model_type info = best_model_name sel
    /\ (model_type info = "XGBoost" \/ model_type info = "Random Forest")
    /\ performance info =
         {| perf_rmse := rmse (best_results sel);
            perf_mae := mae (best_results sel);
            perf_r2 := r2 (best_results sel) |}.
Proof.
  cbv zeta. unfold notebook_run.
  destruct (prepare_features_spec float_str (create_features df))
    as [codes [_ ->]].
  cbn [obind fst snd].
  eexists. eexists. split; [reflexivity|].
  split; [unfold save_artifacts; apply lookup_insert_eq|].
  unfold make_feature_info. cbn [feature_names model_type performance].
  split; [reflexivity|]. split; [reflexivity|]. split; [reflexivity|].
  split; [|reflexivity].
  unfold select_best. destruct (Rlt_dec _ _); [left | right]; reflexivity.
Qed.

End PipelineClaims.

(** ** Concrete runs *)

(** C1 as stated fails on a tie: with both RMSE values equal to 4.2 the
    selector keeps the random forest, the model evaluated second, and not
    XGBoost, the model evaluated first. *)
Lemma select_best_tie_counterexample :
  let xgb_results := {| predictions := []; rmse := 4.2; mae := 3; r2 := 0.5 |} in
  let rf_results := {| predictions := []; rmse := 4.2; mae := 3; r2 := 0.5 |} in
  let sel := select_best "xgb_model" "rf_model" xgb_results rf_results in
  rmse xgb_results = rmse rf_results
  /\ best_model sel = "rf_model"
  /\ best_model_name sel = "Random Forest"
  /\ best_model_name sel <> "XGBoost".
Proof.
  cbv zeta. unfold select_best. cbn [rmse].
  destruct (Rlt_dec 4.2 4.2) as [Hlt|_]; [lra|].
  cbn [best_model best_model_name].
  split; [reflexivity|]. split; [reflexivity|]. split; [reflexivity|discriminate].
Qed.

Lemma select_best_lower_rmse_witness :
  let high := {| predictions := []; rmse := 4.2; mae := 3; r2 := 0.5 |} in
  let low := {| predictions := []; rmse := 3.9; mae := 3; r2 := 0.5 |} in
  (rmse low < rmse high)%R
  /\ select_best "xgb_model" "rf_model" high low
     = {| best_model := "rf_model"; best_model_name := "Random Forest";
          best_results := low |}
  /\ select_best "xgb_model" "rf_model" low high
     = {| best_model := "xgb_model"; best_model_name := "XGBoost";
          best_results := low |}.
Proof.
  intros high low.
  assert (Hlt : (rmse low < rmse high)%R) by (simpl; lra).
  split; [exact Hlt|]. split.
  - exact (proj1 (proj2 (select_best_lower_rmse "xgb_model" "rf_model" high low)) Hlt).
  - exact (proj1 (select_best_lower_rmse "xgb_model" "rf_model" low high) Hlt).
Defined.

Lemma missing_route_returns_none_witness :
  (forall d, In d scenario_df -> ~ (from_station d = "B" /\ to_station d = "A"))
  /\ @make_sample_prediction R constant_regressor (create_features scenario_df)
       {[ "route_encoder" := LabelEncoder.fit ["A_B"] ]} feature_columns
       0%R "B" "A" 8
     = ([no_data_message "B" "A"], Returned None).
Proof.
  assert (Hno : forall d, In d scenario_df ->
                  ~ (from_station d = "B" /\ to_station d = "A")).
  { intros d Hd [Hfrom _]. simpl in Hd.
    destruct Hd as [<-|[<-|[<-|[]]]]; discriminate Hfrom. }
  split; [exact Hno|].
  exact (proj1 (@missing_route_returns_none R constant_regressor scenario_df
                  {[ "route_encoder" := LabelEncoder.fit ["A_B"] ]}
                  feature_columns 0%R "B" "A" 8 Hno)).
Defined.

(** A regressor that answers -3 for every row: the evaluator returns 0
    for each of them. *)
Example evaluate_model_negative_outputs
    (mse mae' r2' : list R -> list R -> R) :
  predictions (@evaluate_model R constant_regressor mse mae' r2'
                 (-3)%R [[SInt 8]; [SInt 20]] [5; 3]%R "XGBoost")
  = [0; 0]%R.
Proof.
  unfold evaluate_model. cbn [predictions predict constant_regressor map].
  rewrite Rmax_right by lra. reflexivity.
Qed.

(** A route that is in the data: the helper prints nothing and returns the
    regressor's answer, clamped at 0. *)
Example sample_prediction_known_route :
  @make_sample_prediction R constant_regressor (create_features scenario_df)
    {[ "route_encoder" := LabelEncoder.fit ["A_B"] ]} feature_columns
    4%R "A" "B" 8
  = ([], Returned (Some 4%R)).
Proof.
  rewrite create_features_eq. unfold make_sample_prediction.
  cbn [scenario_df map List.filter featurize fst snd source scenario_departure from_station to_station String.eqb Ascii.eqb Bool.eqb andb route route_key].
  f_equal.
  unfold encode_route. rewrite lookup_singleton_eq.
  cbn -[Rmax cyclical_sin cyclical_cos lookup insert].
  unfold feature_columns. cbn [traverse].
  repeat (rewrite ?lookup_insert_eq; rewrite ?lookup_insert_ne by discriminate).
  cbn [obind predict constant_regressor map].
  rewrite Rmax_right by lra. reflexivity.
Qed.


(** * Further properties of the notebook *)

(** ** The sample prediction on a route that is in the data *)

Section ServingFacts.

Context {model : Type} `{Regressor model}.

(** With the ten feature names, the helper hands [serving_row] to the
    model. *)
Lemma make_sample_prediction_found (rows : list feature_row)
    (le : LabelEncoder.t) (best : model) (origin destination : string) (h : Z)
    (r : feature_row) (rest : list feature_row) (code : nat) :
  List.filter (fun r => String.eqb (from_station (source r)) origin
                        && String.eqb (to_station (source r)) destination)
              rows = r :: rest ->
  LabelEncoder.encode le (route r) = Returned code ->
  make_sample_prediction rows {[ "route_encoder" := le ]} feature_columns
    best origin destination h
  = ([], served_prediction best (serving_row r h code)).
Proof.
  intros Hf Hc. unfold make_sample_prediction. rewrite Hf. f_equal.
  unfold encode_route. rewrite lookup_singleton_eq.
  unfold LabelEncoder.transform. cbn [traverse]. rewrite Hc. cbn [obind].
  unfold feature_columns. cbn [traverse].
  repeat (rewrite ?lookup_insert_eq; rewrite ?lookup_insert_ne by discriminate).
  cbn [obind]. reflexivity.
Qed.

End ServingFacts.

Lemma filter_first {A} (P : A -> bool) (l : list A) (j : nat) (x : A) :
  nth_error l j = Some x -> P x = true ->
  (forall i y, (i < j)%nat -> nth_error l i = Some y -> P y = false) ->
  exists rest, List.filter P l = x :: rest.
Proof.
  revert j. induction l as [|a l IH]; intros j Hj Hx Hbefore.
  - destruct j; discriminate.
  - destruct j as [|j]; simpl in Hj.
    + injection Hj as ->. simpl. rewrite Hx. eauto.
    + simpl. rewrite (Hbefore 0%nat a ltac:(lia) eq_refl).
      apply (IH j Hj Hx). intros i y Hi Hy.
      apply (Hbefore (S i) y); [lia | exact Hy].
Qed.

Lemma filter_nonempty {A} (P : A -> bool) (l : list A) (x : A) :
  In x l -> P x = true -> exists y rest, List.filter P l = y :: rest.
Proof.
  intros Hin Hx.
  assert (Hf : In x (List.filter P l)) by (apply filter_In; split; assumption).
  destruct (List.filter P l) as [|y rest]; [destruct Hf | eauto].
Qed.

Lemma nth_map_nth_error {A B} (f : A -> B) (l : list A) (j : nat) (a : A) (b : B) :
  nth_error l j = Some a -> nth j (map f l) b = f a.
Proof.
  revert j. induction l as [|x l IH]; intros [|j] Hj; simpl in *;
    try discriminate.
  - injection Hj as ->. reflexivity.
  - apply IH; exact Hj.
Qed.

Section ServingClaims.

Context {model : Type} `{Regressor model}.
Variable float_str : R -> string.

(** The row of the training matrix and the row built at prediction time
    coincide: for a record that is the first of its origin/destination
    pair, a sample prediction at the record's own hour feeds the model
    exactly row [j] of the encoded training matrix [X]. *)
Theorem serving_row_matches_training_row (df : list departure) (j : nat)
    (d : departure) (best : model) :
  nth_error df j = Some d ->
  (forall i d', (i < j)%nat -> nth_error df i = Some d' ->
     ~ (from_station d' = from_station d /\ to_station d' = to_station d)) ->
  exists X y label_encoders,
    prepare_features float_str (create_features df)
      = Returned (X, y, label_encoders)
    /\ make_sample_prediction (create_features df) label_encoders (columns X)
         best (from_station d) (to_station d) (hour d)
       = ([], served_prediction best (frame_row j X)).
Proof.
  intros Hj Hfirst.
  destruct (prepare_features_spec float_str (create_features df))
    as [codes [Hc Hp]].
  destruct (fit_transform_Returned (map route (create_features df)))
    as [codes' [Hc' HF]].
  rewrite Hc in Hc'. injection Hc' as <-.
  exists (encoded_frame (create_features df) codes),
    (map (fun r => delay (source r)) (create_features df)),
    {[ "route_encoder" := LabelEncoder.fit (map route (create_features df)) ]}.
  split; [exact Hp|].
  set (r := featurize (d, Some (route_stat_for df (route_key d)))).
  assert (Hr : nth_error (create_features df) j = Some r).
  { rewrite create_features_eq. rewrite nth_error_map, Hj. reflexivity. }
  assert (Hk : nth_error (map route (create_features df)) j = Some (route r)).
  { rewrite nth_error_map, Hr. reflexivity. }
  destruct (Forall2_nth_error _ _ _ HF j _ Hk) as [code [Hcode Henc]].
  destruct (filter_first
              (fun r => String.eqb (from_station (source r)) (from_station d)
                        && String.eqb (to_station (source r)) (to_station d))
              (create_features df) j r Hr) as [rest Hf].
  { simpl. rewrite !String.eqb_refl. reflexivity. }
  { intros i y Hi Hy. rewrite create_features_eq, nth_error_map in Hy.
    destruct (nth_error df i) as [d'|] eqn:Hd'; [|discriminate].
    injection Hy as <-. simpl.
    destruct (String.eqb_spec (from_station d') (from_station d)) as [Ea|];
      [|reflexivity].
    destruct (String.eqb_spec (to_station d') (to_station d)) as [Eb|];
      [|reflexivity].
    exfalso. apply (Hfirst i d' Hi Hd'). split; assumption. }
  change (columns (encoded_frame (create_features df) codes))
    with feature_columns.
  rewrite (make_sample_prediction_found _ _ best _ _ (hour d) r rest code Hf Henc).
  f_equal. f_equal. unfold frame_row, encoded_frame, serving_row.
  cbn [map snd].
  rewrite !(nth_map_nth_error _ _ j r SNaN Hr).
  rewrite (nth_map_nth_error _ _ j code SNaN Hcode).
  reflexivity.
Qed.

End ServingClaims.

(** ** The sample routes *)

Lemma station_pair_eqb_spec (x y : string * string) :
  reflect (x = y) (station_pair_eqb x y).
Proof.
  destruct x as [a b], y as [a' b']. unfold station_pair_eqb. simpl.
  destruct (String.eqb_spec a a') as [->|Ha];
    destruct (String.eqb_spec b b') as [->|Hb]; simpl; constructor;
    congruence.
Qed.

Lemma in_drop_duplicates (x : string * string) (l : list (string * string)) :
  In x (drop_duplicates l) <-> In x l.
Proof.
  induction l as [|y l IH]; simpl; [reflexivity|].
  rewrite filter_In, IH.
  destruct (station_pair_eqb_spec x y) as [->|Hne]; simpl.
  - intuition.
  - intuition congruence.
Qed.

Lemma drop_duplicates_NoDup (l : list (string * string)) :
  List.NoDup (drop_duplicates l).
Proof.
  induction l as [|y l IH]; simpl; constructor.
  - rewrite filter_In. intros [_ Hy].
    destruct (station_pair_eqb_spec y y); [discriminate | congruence].
  - apply List.NoDup_filter; exact IH.
Qed.

Lemma in_firstn {A} (n : nat) (l : list A) (x : A) :
  In x (firstn n l) -> In x l.
Proof.
  revert l. induction n as [|n IH]; intros [|a l]; simpl; try tauto.
  intros [->|Hx]; [left; reflexivity | right; apply IH; exact Hx].
Qed.

Lemma firstn_NoDup {A} (n : nat) (l : list A) :
  List.NoDup l -> List.NoDup (firstn n l).
Proof.
  intros Hnd. revert n. induction Hnd as [|a l Ha Hnd IH]; intros [|n]; simpl;
    try constructor.
  - intros Hin. apply Ha. eapply in_firstn; exact Hin.
  - apply IH.
Qed.

(** The sample routes are at most five distinct origin/destination pairs,
    each of them the pair of some row; the first row's pair comes first;
    and when the data holds at most five distinct pairs, every pair of the
    data is a sample route. *)
Theorem sample_routes_from_data (rows : list feature_row) :
  let pair_of r := (from_station (source r), to_station (source r)) in
  (length (sample_routes rows) <= 5)%nat
  /\ List.NoDup (sample_routes rows)
  /\ (forall ab, In ab (sample_routes rows) ->
        exists r, In r rows /\ pair_of r = ab)
  /\ (forall r rows', rows = r :: rows' ->
        exists rest, sample_routes rows = pair_of r :: rest)
  /\ ((length (drop_duplicates (map pair_of rows)) <= 5)%nat ->
        forall r, In r rows -> In (pair_of r) (sample_routes rows)).
Proof.
  intros pair_of. unfold sample_routes. fold pair_of.
  split; [apply firstn_le_length|].
  split; [apply firstn_NoDup, drop_duplicates_NoDup|].
  split; [|split].
  - intros ab Hab. apply in_firstn, in_drop_duplicates, in_map_iff in Hab.
    destruct Hab as [r [E Hr]]. eauto.
  - intros r rows' ->. simpl. eauto.
  - intros Hlen r Hr. rewrite firstn_all2 by exact Hlen.
    apply in_drop_duplicates, in_map. exact Hr.
Qed.

(** ** Sample predictions in the notebook's own state *)

Section SampleRunClaims.

Context {model : Type} `{Regressor model}.
Variable float_str : R -> string.
Variable format_minutes : R -> string.

Lemma prepare_features_encoders (df : list departure) :
  exists X y,
    prepare_features float_str (create_features df)
      = Returned (X, y, route_encoders df)
    /\ columns X = feature_columns.
Proof.
  destruct (prepare_features_spec float_str (create_features df))
    as [codes [_ Hp]].
  eexists. eexists. split; [exact Hp | reflexivity].
Qed.

Lemma known_route_call (df : list departure) (d : departure) (best : model)
    (h : Z) :
  In d df ->
  exists r code,
    make_sample_prediction (create_features df) (route_encoders df)
      feature_columns best (from_station d) (to_station d) h
    = ([], served_prediction best (serving_row r h code)).
Proof.
  intros Hd.
  set (r0 := featurize (d, Some (route_stat_for df (route_key d)))).
  assert (Hr0 : In r0 (create_features df)).
  { rewrite create_features_eq. apply in_map_iff. exists d. split; [reflexivity | exact Hd]. }
  destruct (filter_nonempty
              (fun r => String.eqb (from_station (source r)) (from_station d)
                        && String.eqb (to_station (source r)) (to_station d))
              (create_features df) r0 Hr0) as [r [rest Hf]].
  { simpl. rewrite !String.eqb_refl. reflexivity. }
  assert (Hr : In r (create_features df)).
  { assert (Hin : In r (r :: rest)) by (left; reflexivity).
    rewrite <- Hf in Hin. apply filter_In in Hin. tauto. }
  destruct (encode_fit_In (map route (create_features df)) (route r))
    as [code [Hcode _]]; [apply in_map; exact Hr|].
  exists r, code. apply make_sample_prediction_found with (rest := rest);
    assumption.
Qed.

Lemma served_prediction_nonneg (best : model) (row : list scalar) :
  predict best [row] <> [] ->
  exists p, served_prediction best row = Returned (Some p) /\ (0 <= p)%R.
Proof.
  intros Hne. unfold served_prediction.
  destruct (predict best [row]) as [|p ps]; [congruence|].
  exists (Rmax 0 p). split; [reflexivity | apply Rmax_l].
Qed.


Lemma hours_loop_known (df : list departure) (d : departure) (best : model)
    (hours : list Z) :
  In d df ->
  (forall row, predict best [row] <> []) ->
  let p a b h :=
    match snd (make_sample_prediction (create_features df) (route_encoders df)
                 feature_columns best a b h) with
    | Returned (Some x) => x
    | _ => 0%R
    end in
  hours_loop format_minutes (create_features df) (route_encoders df)
    feature_columns best (from_station d) (to_station d) hours
  = (map (fun h => prediction_line format_minutes (from_station d)
                     (to_station d) h (p (from_station d) (to_station d) h))
         hours,
     Returned tt).
Proof.
  intros Hd Hpred p. induction hours as [|h hours IH]; [reflexivity|].
  cbn [hours_loop map]. unfold p at 1.
  destruct (known_route_call df d best h Hd) as [r [code Hcall]].
  destruct (served_prediction_nonneg best (serving_row r h code) (Hpred _))
    as [x [Hs _]].
  rewrite Hcall, Hs, IH. reflexivity.
Qed.

Lemma routes_loop_known (df : list departure) (best : model)
    (routes : list (string * string)) :
  (forall ab, In ab routes ->
     exists d, In d df /\ (from_station d, to_station d) = ab) ->
  (forall row, predict best [row] <> []) ->
  let p a b h :=
    match snd (make_sample_prediction (create_features df) (route_encoders df)
                 feature_columns best a b h) with
    | Returned (Some x) => x
    | _ => 0%R
    end in
  routes_loop format_minutes (create_features df) (route_encoders df)
    feature_columns best routes
  = (flat_map (route_block format_minutes p) routes, Returned tt).
Proof.
  intros Hroutes Hpred p. induction routes as [|ab routes IH]; [reflexivity|].
  cbn [routes_loop flat_map].
  destruct (Hroutes ab (or_introl eq_refl)) as [d [Hd <-]].
  cbn [fst snd].
  rewrite (hours_loop_known df d best test_hours Hd Hpred). cbn [fst snd].
  rewrite IH by (intros ab' Hab'; apply Hroutes; right; exact Hab').
  unfold route_block. cbn [fst snd]. fold p.
  rewrite <- !app_assoc. reflexivity.
Qed.

End SampleRunClaims.

Section SampleLoopClaims.

Context {model : Type} `{Regressor model}.
Variable float_str : R -> string.
Variable format_minutes : R -> string.

Lemma make_sample_prediction_nonneg (df_features : list feature_row)
    (label_encoders : gmap string LabelEncoder.t) (names : list string)
    (best : model) (origin destination : string) (h : Z) (x : R) :
  snd (make_sample_prediction df_features label_encoders names best
         origin destination h) = Returned (Some x) ->
  (0 <= x)%R.
Proof.
  unfold make_sample_prediction.
  destruct (List.filter _ df_features) as [|route_data rest]; cbn [snd].
  - discriminate.
  - destruct (encode_route label_encoders (route route_data)) as [code|e];
      cbn [obind]; [|discriminate].
    destruct (traverse _ names) as [X_pred|e]; cbn [obind]; [|discriminate].
    destruct (predict best [X_pred]) as [|p ps]; [discriminate|].
    intros [= <-]. apply Rmax_l.
Qed.

(** Whatever the data, the encoders, the feature names and the model: the
    sample prediction returns [None] exactly when no row has the requested
    origin and destination, and it prints its "No data found" line exactly
    then (otherwise it prints nothing); and a number it returns is never
    negative. *)
Theorem sample_prediction_outcomes (df_features : list feature_row)
    (label_encoders : gmap string LabelEncoder.t) (names : list string)
    (best : model) (origin destination : string) (h : Z) :
  let run := make_sample_prediction df_features label_encoders names best
               origin destination h in
  let no_record := forall r, In r df_features ->
                     ~ (from_station (source r) = origin
                        /\ to_station (source r) = destination) in
  (snd run = Returned None <-> no_record)
  /\ (no_record -> fst run = [no_data_message origin destination])
  /\ (~ no_record -> fst run = [])
  /\ (forall x, snd run = Returned (Some x) -> (0 <= x)%R).
Proof.
  cbv zeta.
  split; [|split; [|split]];
    [| | |intros x; apply make_sample_prediction_nonneg].
  all: unfold make_sample_prediction;
    destruct (List.filter _ df_features) as [|route_data rest] eqn:Hf;
    cbn [fst snd].
  - split; [intros _|reflexivity]. intros r Hr [Ha Hb].
    assert (Hin : In r []); [|destruct Hin].
    rewrite <- Hf. apply filter_In. split; [exact Hr|].
    rewrite Ha, Hb, !String.eqb_refl. reflexivity.
  - assert (Hin : In route_data (route_data :: rest)) by (left; reflexivity).
    rewrite <- Hf in Hin. apply filter_In in Hin. destruct Hin as [Hr Hm].
    apply andb_true_iff in Hm. destruct Hm as [Ha Hb].
    apply String.eqb_eq in Ha. apply String.eqb_eq in Hb.
    split.
    + destruct (encode_route label_encoders (route route_data)) as [code|e];
        cbn [obind]; [|discriminate].
      destruct (traverse _ names) as [X_pred|e]; cbn [obind]; [|discriminate].
      destruct (predict best [X_pred]) as [|p ps]; discriminate.
    + intros Hno. exfalso. apply (Hno route_data Hr). split; assumption.
  - reflexivity.
  - intros Hno. exfalso.
    assert (Hin : In route_data (route_data :: rest)) by (left; reflexivity).
    rewrite <- Hf in Hin. apply filter_In in Hin. destruct Hin as [Hr Hm].
    apply andb_true_iff in Hm. destruct Hm as [Ha Hb].
    apply String.eqb_eq in Ha. apply String.eqb_eq in Hb.
    apply (Hno route_data Hr). split; assumption.
  - intros Hyes. exfalso. apply Hyes. intros r Hr [Ha Hb].
    assert (Hin : In r []); [|destruct Hin].
    rewrite <- Hf. apply filter_In. split; [exact Hr|].
    rewrite Ha, Hb, !String.eqb_refl. reflexivity.
  - reflexivity.
Qed.

(** In the notebook's own state, with a model that answers every one-row
    matrix, the loop over the sample routes runs to its end without an
    exception: after the two header lines it prints, for every sample
    route, one prediction line per test hour (8, 14, 18) and an empty line,
    and nothing else; every predicted delay printed is non-negative. *)
Theorem sample_loop_completes (df : list departure) (best : model) :
  (forall row, predict best [row] <> []) ->
  exists X y label_encoders (p : string -> string -> Z -> R),
    prepare_features float_str (create_features df)
      = Returned (X, y, label_encoders)
    /\ (forall a b h, (0 <= p a b h)%R)
    /\ run_sample_predictions format_minutes (create_features df)
         label_encoders (columns X) best
       = ([String.append test_tube " Testing model with sample predictions:"; ""]
            ++ flat_map (route_block format_minutes p)
                 (sample_routes (create_features df)),
          Returned tt)
    /\ length (fst (run_sample_predictions format_minutes (create_features df)
                      label_encoders (columns X) best))
       = (2 + 4 * length (sample_routes (create_features df)))%nat.
Proof.
  intros Hpred.
  destruct (prepare_features_encoders float_str df) as [X [y [Hp Hcols]]].
  set (p := fun a b h =>
    match snd (make_sample_prediction (create_features df) (route_encoders df)
                 feature_columns best a b h) with
    | Returned (Some x) => x
    | _ => 0%R
    end).
  assert (Hrun : run_sample_predictions format_minutes (create_features df)
                   (route_encoders df) (columns X) best
                 = ([String.append test_tube " Testing model with sample predictions:"; ""]
                      ++ flat_map (route_block format_minutes p)
                           (sample_routes (create_features df)),
                    Returned tt)).
  { unfold run_sample_predictions. rewrite Hcols.
    rewrite (routes_loop_known format_minutes df best); [reflexivity| |exact Hpred].
    intros ab Hab. unfold sample_routes in Hab.
    apply in_firstn, in_drop_duplicates, in_map_iff in Hab.
    destruct Hab as [r [E Hr]].
    destruct (create_features_In df r Hr) as [d [Hd ->]].
    exists d. split; [exact Hd | exact E]. }
  exists X, y, (route_encoders df), p.
  split; [exact Hp|]. split; [|split; [exact Hrun|]].
  - intros a b h. unfold p.
    destruct (snd (make_sample_prediction _ _ _ best a b h)) as [[x|]|e] eqn:E;
      try lra.
    eapply make_sample_prediction_nonneg; exact E.
  - rewrite Hrun. cbn [fst]. rewrite length_app. cbn [length].
    f_equal. generalize (sample_routes (create_features df)).
    intros routes. induction routes as [|ab routes IH]; [reflexivity|].
    cbn [flat_map]. rewrite length_app, IH. unfold route_block.
    rewrite length_app, length_map. simpl. lia.
Qed.

End SampleLoopClaims.

(** ** Further properties of the feature builder *)

(** The feature builder returns one row per input record, in input order:
    row [j] is built from record [j], and its route key is the origin code,
    an underscore and the destination code. The left merge neither drops
    nor duplicates a record. *)
Theorem create_features_keeps_rows (df : list departure) :
  map source (create_features df) = df
  /\ length (create_features df) = length df
  /\ (forall j d, nth_error df j = Some d ->
        exists row, nth_error (create_features df) j = Some row
                    /\ source row = d
                    /\ route row
                       = String.append (from_station d)
                           (String.append "_" (to_station d))).
Proof.
  split; [|split].
  - rewrite create_features_eq, map_map. simpl. apply map_id.
  - rewrite create_features_eq. apply length_map.
  - intros j d Hj. rewrite create_features_eq, nth_error_map, Hj. simpl.
    eexists. split; [reflexivity|]. split; reflexivity.
Qed.

Lemma fillna_std_nonneg (xs : list R) : (0 <= fillna 0 (std xs))%R.
Proof.
  unfold std. destruct (mean xs) as [m|]; simpl; [|lra].
  destruct (length xs <=? 1)%nat; simpl; [lra | apply sqrt_pos].
Qed.

Lemma route_delays_length (df : list departure) (k : string) :
  (length (route_delays df k) <= length df)%nat.
Proof.
  unfold route_delays. rewrite length_map.
  induction df as [|d df IH]; simpl; [lia|].
  destruct (String.eqb (route_key d) k); simpl; lia.
Qed.

(** The route statistics of every row are well defined: the average is
    present, the count is present and lies between 1 and the number of
    input records, and the standard deviation (after [fillna(0)]) is not
    negative. *)
Theorem route_statistics_well_defined (df : list departure) (row : feature_row) :
  In row (create_features df) ->
  (exists m, route_avg_delay row = Some m)
  /\ (exists n, route_count row = Some n /\ (1 <= n <= length df)%nat)
  /\ (0 <= route_std_delay row)%R.
Proof.
  intros Hin. destruct (create_features_In df row Hin) as [d [Hd ->]].
  cbn [featurize fst snd route_std_delay route_avg_delay route_count
       route_stat_for rs_mean rs_std rs_count option_map].
  pose proof (route_delays_nonempty df d Hd) as Hlen.
  split; [|split].
  - rewrite mean_average by exact Hlen. eauto.
  - exists (count (route_delays df (route_key d))). split; [reflexivity|].
    unfold count. split; [exact Hlen | apply route_delays_length].
  - apply fillna_std_nonneg.
Qed.

(** ** The route key *)

Lemma append_underscore_injective (a1 a2 b1 b2 : string) :
  no_underscore a1 -> no_underscore a2 ->
  String.append a1 (String.append "_" b1)
  = String.append a2 (String.append "_" b2) ->
  a1 = a2 /\ b1 = b2.
Proof.
  unfold no_underscore. revert a2.
  induction a1 as [|c1 a1 IH]; intros [|c2 a2] H1 H2 E.
  - change (String "_"%char b1 = String "_"%char b2) in E.
    injection E as ->. split; reflexivity.
  - change (String "_"%char b1
            = String c2 (String.append a2 (String.append "_" b2))) in E.
    injection E as Hc _. exfalso. apply H2. left. symmetry. exact Hc.
  - change (String c1 (String.append a1 (String.append "_" b1))
            = String "_"%char b2) in E.
    injection E as Hc _. exfalso. apply H1. left. exact Hc.
  - change (String c1 (String.append a1 (String.append "_" b1))
            = String c2 (String.append a2 (String.append "_" b2))) in E.
    injection E as Hc Hrest.
    destruct (IH a2) as [Ha Hb].
    + intros Hin. apply H1. right. exact Hin.
    + intros Hin. apply H2. right. exact Hin.
    + exact Hrest.
    + subst. split; reflexivity.
Qed.

(** When the origin codes hold no underscore, the route key identifies the
    origin/destination pair: two rows of the feature builder with the same
    route have the same origin and the same destination (and then the same
    route statistics are statistics of one pair only). *)
Theorem route_key_identifies_pair (df : list departure) (row1 row2 : feature_row) :
  In row1 (create_features df) -> In row2 (create_features df) ->
  no_underscore (from_station (source row1)) ->
  no_underscore (from_station (source row2)) ->
  route row1 = route row2 ->
  from_station (source row1) = from_station (source row2)
  /\ to_station (source row1) = to_station (source row2).
Proof.
  intros H1 H2.
  destruct (create_features_In df row1 H1) as [d1 [_ ->]].
  destruct (create_features_In df row2 H2) as [d2 [_ ->]].
  cbn [featurize fst snd route source]. unfold route_key.
  apply append_underscore_injective.
Qed.

(** ** Further properties of the route encoder *)

Lemma index_of_not_In (k : string) (l : list string) :
  ~ In k l -> index_of k l = None.
Proof.
  induction l as [|c l IH]; simpl; intros Hno; [reflexivity|].
  destruct (String.eqb_spec k c) as [->|Hne]; [exfalso; apply Hno; left; reflexivity|].
  rewrite IH; [reflexivity | tauto].
Qed.

(** Looking a route key up in an encoders dict whose entry "route_encoder"
    is the encoder fitted on [keys] returns a code exactly for the keys of
    [keys], and raises [ValueError] for any other key; in any dict without
    the entry "route_encoder", whatever else it holds, the lookup raises
    [KeyError] for every key. *)
Theorem encode_route_errors (label_encoders : gmap string LabelEncoder.t)
    (keys : list string) (k : string) :
  (label_encoders !! "route_encoder" = Some (LabelEncoder.fit keys) ->
     ((exists c, encode_route label_encoders k = Returned c) <-> In k keys)
     /\ (~ In k keys -> encode_route label_encoders k = Raised "ValueError"))
  /\ (label_encoders !! "route_encoder" = None ->
        encode_route label_encoders k = Raised "KeyError").
Proof.
  split.
  - intros Hle.
    assert (Hunseen : ~ In k keys ->
              encode_route label_encoders k = Raised "ValueError").
    { intros Hno. unfold encode_route. rewrite Hle.
      unfold LabelEncoder.transform, LabelEncoder.encode. cbn [traverse].
      cbn [LabelEncoder.fit LabelEncoder.classes_].
      rewrite index_of_not_In; [reflexivity|].
      rewrite in_sorted_set. exact Hno. }
    split; [|exact Hunseen]. split.
    + intros [c Hc].
      destruct (in_dec string_dec k keys) as [Hin|Hno]; [exact Hin|].
      rewrite (Hunseen Hno) in Hc. discriminate.
    + intros Hin. destruct (encode_fit_In keys k Hin) as [c [Hc _]].
      exists c. unfold encode_route. rewrite Hle.
      unfold LabelEncoder.transform. cbn [traverse]. rewrite Hc. reflexivity.
  - intros Hmiss. unfold encode_route. rewrite Hmiss. reflexivity.
Qed.

Lemma sorted_nth_lt (l : list string) (i j : nat) (a b : string) :
  StronglySorted str_lt l -> (i < j)%nat ->
  nth_error l i = Some a -> nth_error l j = Some b -> str_lt a b.
Proof.
  intros Hs. revert i j. induction Hs as [|c l Hs IH Hc]; intros i j Hij Hi Hj.
  - destruct i; discriminate.
  - destruct j as [|j]; [lia|]. simpl in Hj. destruct i as [|i]; simpl in Hi.
    + injection Hi as <-. rewrite List.Forall_forall in Hc. apply Hc.
      eapply nth_error_In; exact Hj.
    + apply (IH i j); [lia | exact Hi | exact Hj].
Qed.

(** The encoding keeps the order of the keys: for two fitted keys, the code
    of the first is smaller than the code of the second exactly when the
    first key comes before the second in lexicographic order. *)
Theorem encoder_is_order_preserving (keys : list string) (k1 k2 : string)
    (c1 c2 : nat) :
  LabelEncoder.encode (LabelEncoder.fit keys) k1 = Returned c1 ->
  LabelEncoder.encode (LabelEncoder.fit keys) k2 = Returned c2 ->
  ((c1 < c2)%nat <-> String_as_OT.lt k1 k2).
Proof.
  intros H1 H2.
  apply encode_Returned_nth in H1. apply encode_Returned_nth in H2.
  cbn [LabelEncoder.fit LabelEncoder.classes_] in H1, H2.
  pose proof (sorted_set_sorted keys) as Hs.
  split.
  - intros Hlt. apply String_as_OT.cmp_lt.
    exact (sorted_nth_lt _ _ _ _ _ Hs Hlt H1 H2).
  - intros Hlt. apply String_as_OT.cmp_lt in Hlt.
    destruct (Nat.lt_trichotomy c1 c2) as [Hc|[Hc|Hc]]; [exact Hc| |].
    + subst c2. rewrite H1 in H2. injection H2 as ->.
      exfalso. exact (str_lt_irrefl _ Hlt).
    + exfalso. apply (str_lt_asym _ _ Hlt).
      exact (sorted_nth_lt _ _ _ _ _ Hs Hc H2 H1).
Qed.

(** ** Further properties of evaluation, selection and persistence *)

Section PipelineFacts.

Context {model : Type} `{Regressor model}.
Variables mean_squared_error mean_absolute_error r2_score : list R -> list R -> R.
Variable float_str : R -> string.

(** Clamping touches negative outputs only: the evaluator's predictions
    follow the model's outputs one by one, a non-negative output is kept as
    it is and a negative one becomes 0; so a model without negative outputs
    is scored on its raw outputs. *)
Theorem evaluate_model_keeps_nonnegative (m : model)
    (X_test : list (list scalar)) (y_test : list R) (model_name : string) :
  let res := evaluate_model mean_squared_error mean_absolute_error r2_score
               m X_test y_test model_name in
  Forall2 (fun o p => ((0 <= o)%R -> p = o) /\ ((o <= 0)%R -> p = 0%R))
          (predict m X_test) (predictions res)
  /\ (Forall (fun o => (0 <= o)%R) (predict m X_test) ->
        predictions res = predict m X_test
        /\ rmse res = sqrt (mean_squared_error y_test (predict m X_test))
        /\ mae res = mean_absolute_error y_test (predict m X_test)
        /\ r2 res = r2_score y_test (predict m X_test)).
Proof.
  cbv zeta. unfold evaluate_model. cbn [predictions rmse mae r2].
  generalize (predict m X_test). intros outputs. split.
  - induction outputs as [|o outputs IH]; simpl; constructor; [|exact IH].
    split; intros Ho; [apply Rmax_left | apply Rmax_right]; exact Ho.
  - intros Hpos.
    assert (E : map (fun p => Rmax p 0) outputs = outputs).
    { induction Hpos as [|o outputs Ho Hpos IH]; simpl; [reflexivity|].
      rewrite IH, Rmax_left by exact Ho. reflexivity. }
    rewrite E. repeat split; reflexivity.
Qed.

(** The selected model is one of the two candidates, with its own results,
    and its RMSE is the smaller of the two RMSE values. *)
Theorem select_best_minimal_rmse (xgb_model rf_model : model)
    (xgb_results rf_results : results) :
  let sel := select_best xgb_model rf_model xgb_results rf_results in
  rmse (best_results sel) = Rmin (rmse xgb_results) (rmse rf_results)
  /\ (rmse (best_results sel) <= rmse xgb_results)%R
  /\ (rmse (best_results sel) <= rmse rf_results)%R
  /\ ((best_model sel = xgb_model /\ best_model_name sel = "XGBoost"
       /\ best_results sel = xgb_results)
      \/ (best_model sel = rf_model /\ best_model_name sel = "Random Forest"
          /\ best_results sel = rf_results)).
Proof.
  cbv zeta. unfold select_best.
  destruct (Rlt_dec (rmse xgb_results) (rmse rf_results)) as [Hlt|Hge];
    cbn [best_model best_model_name best_results].
  - rewrite Rmin_left by lra. repeat split; try lra. left. repeat split.
  - rewrite Rmin_right by lra. repeat split; try lra. right. repeat split.
Qed.

(** Saving writes the three files [trained_model.pkl], [encoders.pkl] and
    [model_info.json], whatever they held before, and leaves every other
    file as it was; saving the same artifacts twice is the same as saving
    them once. *)
Theorem save_artifacts_overwrites (sel : selection model)
    (label_encoders : gmap string LabelEncoder.t) (names : list string)
    (files : gmap string (artifact model)) :
  let files' := save_artifacts sel label_encoders names files in
  files' !! "trained_model.pkl" = Some (Pickled_model (best_model sel))
  /\ files' !! "encoders.pkl" = Some (Pickled_encoders label_encoders)
  /\ files' !! "model_info.json" = Some (Json_info (make_feature_info names sel))
  /\ (forall path, path <> "trained_model.pkl" -> path <> "encoders.pkl" ->
        path <> "model_info.json" -> files' !! path = files !! path)
  /\ save_artifacts sel label_encoders names files' = files'.
Proof.
  cbv zeta. unfold save_artifacts.
  split; [|split; [|split; [|split]]].
  - rewrite !lookup_insert_ne by discriminate. apply lookup_insert_eq.
  - rewrite lookup_insert_ne by discriminate. apply lookup_insert_eq.
  - apply lookup_insert_eq.
  - intros path H1 H2 H3. rewrite !lookup_insert_ne by congruence. reflexivity.
  - apply map_eq. intros path.
    destruct (decide (path = "model_info.json")) as [->|H3];
      [rewrite !lookup_insert_eq; reflexivity|].
    rewrite (lookup_insert_ne _ "model_info.json" path) by congruence.
    destruct (decide (path = "encoders.pkl")) as [->|H2].
    { rewrite lookup_insert_eq.
      rewrite (lookup_insert_ne _ "model_info.json") by discriminate.
      rewrite lookup_insert_eq. reflexivity. }
    rewrite (lookup_insert_ne _ "encoders.pkl" path) by congruence.
    destruct (decide (path = "trained_model.pkl")) as [->|H1].
    { rewrite lookup_insert_eq.
      rewrite (lookup_insert_ne _ "model_info.json") by discriminate.
      rewrite (lookup_insert_ne _ "encoders.pkl") by discriminate.
      rewrite lookup_insert_eq. reflexivity. }
    rewrite (lookup_insert_ne _ "trained_model.pkl" path) by congruence.
    rewrite !lookup_insert_ne by congruence. reflexivity.
Qed.

End PipelineFacts.

Section NotebookRunFacts.

Context {model : Type} `{Regressor model}.
Variables mean_squared_error mean_absolute_error r2_score : list R -> list R -> R.
Variable float_str : R -> string.

(** The three artifacts of one run agree with one another: either XGBoost
    had the strictly lower RMSE, the pickled model is the XGBoost model and
    the metadata carry the label "XGBoost" with XGBoost's metrics, or the
    pickled model is the random forest and the metadata carry its label and
    its metrics; the pickled encoders are the route encoder fitted on the
    feature rows. *)
Theorem saved_artifacts_agree (df : list departure) (xgb_model rf_model : model)
    (X_test : list (list scalar)) (y_test : list R)
    (files : gmap string (artifact model)) :
  let evaluate := evaluate_model mean_squared_error mean_absolute_error r2_score in
  let xgb_results := evaluate xgb_model X_test y_test "XGBoost" in
  let rf_results := evaluate rf_model X_test y_test "Random Forest" in
  let info_of name res :=
    {| feature_names := feature_columns; model_type := name;
       performance := {| perf_rmse := rmse res; perf_mae := mae res;
                         perf_r2 := r2 res |} |} in
  exists files',
    notebook_run mean_squared_error mean_absolute_error r2_score float_str
      df xgb_model rf_model X_test y_test files = Returned files'
    /\ files' !! "encoders.pkl" = Some (Pickled_encoders (route_encoders df))
    /\ (((rmse xgb_results < rmse rf_results)%R
         /\ files' !! "trained_model.pkl" = Some (Pickled_model xgb_model)
         /\ files' !! "model_info.json"
            = Some (Json_info (info_of "XGBoost" xgb_results)))
        \/ ((rmse rf_results <= rmse xgb_results)%R
            /\ files' !! "trained_model.pkl" = Some (Pickled_model rf_model)
            /\ files' !! "model_info.json"
               = Some (Json_info (info_of "Random Forest" rf_results)))).
Proof.
  cbv zeta. unfold notebook_run.
  destruct (prepare_features_spec float_str (create_features df))
    as [codes [_ ->]].
  cbn [obind fst snd]. eexists. split; [reflexivity|].
  unfold save_artifacts. split.
  - rewrite lookup_insert_ne by discriminate. apply lookup_insert_eq.
  - rewrite !lookup_insert_eq.
    rewrite !lookup_insert_ne by discriminate. rewrite lookup_insert_eq.
    unfold select_best, make_feature_info.
    destruct (Rlt_dec _ _) as [Hlt|Hge]; [left | right];
      (split; [lra|]); split; reflexivity.
Qed.

(** The feature matrix is rectangular and aligned with the data: cell 11
    succeeds on any feature rows, each of the ten columns of [X] and the
    target [y] have one entry per row, [y] is the delay column, and the
    only encoder stored is the one of the route column. *)
Theorem prepare_features_shape (rows : list feature_row) :
  exists X y label_encoders,
    prepare_features float_str rows = Returned (X, y, label_encoders)
    /\ length X = 10%nat
    /\ Forall (fun c => length (snd c) = length rows) X
    /\ y = map (fun r => delay (source r)) rows
    /\ (forall name,
          label_encoders !! name
          = if String.eqb name "route_encoder"
            then Some (LabelEncoder.fit (map route rows)) else None).
Proof.
  destruct (prepare_features_spec float_str rows) as [codes [Hc Hp]].
  destruct (fit_transform_Returned (map route rows)) as [codes' [Hc' HF]].
  rewrite Hc in Hc'. injection Hc' as <-.
  assert (Hlen : length codes = length rows).
  { clear Hc Hp. rewrite <- (length_map route rows).
    induction HF; simpl; congruence. }
  eexists. eexists. eexists. split; [exact Hp|].
  split; [reflexivity|]. split; [|split; [reflexivity|]].
  - unfold encoded_frame. repeat constructor; cbn [snd]; rewrite length_map;
      try reflexivity; exact Hlen.
  - intros name. destruct (String.eqb_spec name "route_encoder") as [->|Hne].
    + apply lookup_singleton_eq.
    + apply lookup_singleton_ne. congruence.
Qed.

End NotebookRunFacts.

(** ** Frames *)

Lemma get_set_column_same (c : string) (v : list scalar) (f : frame) :
  get_column c (set_column c v f) = Some v.
Proof.
  induction f as [|[n w] f IH]; simpl.
  - rewrite String.eqb_refl. reflexivity.
  - destruct (String.eqb n c) eqn:E; simpl; rewrite E; [reflexivity | exact IH].
Qed.

(** Column assignment [X[c] = v]: reading [c] back gives [v], every other
    column reads as before, and the column order is unchanged when [c] was
    a column (it is appended at the end otherwise). *)
Theorem set_column_round_trip (c : string) (v : list scalar) (f : frame) :
  get_column c (set_column c v f) = Some v
  /\ (forall c', c' <> c ->
        get_column c' (set_column c v f) = get_column c' f)
  /\ (In c (columns f) -> columns (set_column c v f) = columns f)
  /\ (~ In c (columns f) -> columns (set_column c v f) = columns f ++ [c]).
Proof.
  split; [apply get_set_column_same|]. split; [|split].
  - intros c' Hne. induction f as [|[n w] f IH]; simpl.
    + destruct (String.eqb_spec c c'); [congruence | reflexivity].
    + destruct (String.eqb_spec n c) as [->|Hn]; simpl.
      * destruct (String.eqb_spec c c'); [congruence | reflexivity].
      * rewrite IH. reflexivity.
  - induction f as [|[n w] f IH]; simpl; [tauto|].
    destruct (String.eqb_spec n c) as [->|Hn]; simpl; [reflexivity|].
    intros [E|Hin]; [congruence|]. rewrite (IH Hin). reflexivity.
  - induction f as [|[n w] f IH]; simpl; [reflexivity|].
    destruct (String.eqb_spec n c) as [->|Hn]; simpl; [tauto|].
    intros Hno. rewrite IH by tauto. reflexivity.
Qed.

Lemma get_column_In (c : string) (f : frame) :
  In c (columns f) <-> exists v, get_column c f = Some v.
Proof.
  induction f as [|[n w] f IH]; simpl.
  - split; [tauto | intros [v Hv]; discriminate].
  - destruct (String.eqb_spec n c) as [->|Hn].
    + split; eauto.
    + rewrite <- IH. tauto.
Qed.

(** Column selection [df[cols]]: when every requested name is a column the
    result has exactly the requested columns, in the requested order, with
    the values they have in [df]; when some requested name is not a column
    the selection raises [KeyError]. *)
Theorem select_columns_spec (cols : list string) (f : frame) :
  ((forall c, In c cols -> In c (columns f)) ->
     exists g, select_columns cols f = Returned g
               /\ columns g = cols
               /\ (forall c, In c cols -> get_column c g = get_column c f))
  /\ ((exists c, In c cols /\ ~ In c (columns f)) ->
        select_columns cols f = Raised "KeyError").
Proof.
  unfold select_columns. split.
  - induction cols as [|c cols IH]; intros Hall.
    + exists []. simpl. split; [reflexivity|]. split; [reflexivity | tauto].
    + destruct (proj1 (get_column_In c f) (Hall c (or_introl eq_refl))) as [v Hv].
      destruct IH as [g [Hg [Hcols Hget]]];
        [intros c' Hc'; apply Hall; right; exact Hc'|].
      exists ((c, v) :: g). cbn [traverse]. rewrite Hv. cbn [obind].
      rewrite Hg. cbn [obind]. split; [reflexivity|].
      split; [simpl; rewrite Hcols; reflexivity|].
      intros c' [<-|Hc']; simpl.
      * rewrite String.eqb_refl. symmetry. exact Hv.
      * destruct (String.eqb_spec c c') as [->|Hne];
          [symmetry; exact Hv | apply Hget; exact Hc'].
  - intros [c [Hc Hno]]. induction cols as [|c' cols IH]; [destruct Hc|].
    cbn [traverse]. destruct (get_column c' f) as [v|] eqn:Hv; cbn [obind];
      [|reflexivity].
    destruct Hc as [->|Hc].
    + exfalso. apply Hno. apply get_column_In. eauto.
    + rewrite (IH Hc). reflexivity.
Qed.

(** ** The cyclical hour encoding *)

Lemma cos_one_small (x : R) : (- (2 * PI) < x < 2 * PI)%R -> cos x = 1%R -> x = 0%R.
Proof.
  intros Hx Hc. pose proof PI_RGT_0 as Hpi.
  assert (Hs : sin (x / 2) = 0%R).
  { pose proof (cos_2a_sin (x / 2)) as H2.
    replace (2 * (x / 2))%R with x in H2 by lra. nra. }
  destruct (sin_eq_0_0 _ Hs) as [k Hk].
  assert (Hk0 : (k = 0)%Z).
  { assert (H1 : (IZR (-1) < IZR k)%R) by (simpl; nra).
    assert (H2 : (IZR k < IZR 1)%R) by (simpl; nra).
    apply lt_IZR in H1. apply lt_IZR in H2. lia. }
  subst k. simpl in Hk. lra.
Qed.

(** On the hours of a day the cyclical encoding loses nothing: two hours in
    [0, 23] have the same sine and the same cosine feature exactly when
    they are the same hour. *)
Theorem cyclical_encoding_injective (h1 h2 : Z) :
  (0 <= h1 <= 23)%Z -> (0 <= h2 <= 23)%Z ->
  (cyclical_sin h1 = cyclical_sin h2 /\ cyclical_cos h1 = cyclical_cos h2
   <-> h1 = h2).
Proof.
  intros H1 H2. split; [|intros ->; split; reflexivity].
  unfold cyclical_sin, cyclical_cos. intros [Hs Hc].
  pose proof PI_RGT_0 as Hpi.
  set (a := (2 * PI * IZR h1 / 24)%R) in *.
  set (b := (2 * PI * IZR h2 / 24)%R) in *.
  assert (Hcos : cos (a - b) = 1%R).
  { rewrite cos_minus, Hs, Hc.
    pose proof (sin2_cos2 b) as Hsc. unfold Rsqr in Hsc. lra. }
  assert (Hr1 : (0 <= IZR h1 <= 23)%R) by (split; apply IZR_le; lia).
  assert (Hr2 : (0 <= IZR h2 <= 23)%R) by (split; apply IZR_le; lia).
  assert (Hab : (a - b = 0)%R).
  { apply cos_one_small; [|exact Hcos]. unfold a, b. split; nra. }
  apply eq_IZR. unfold a, b in Hab. nra.
Qed.

(** ** The loop without a route encoder *)

Section SampleLoopErrors.

Context {model : Type} `{Regressor model}.
Variable format_minutes : R -> string.

Lemma missing_encoder_call (rows : list feature_row)
    (label_encoders : gmap string LabelEncoder.t) (names : list string)
    (best : model) (origin destination : string) (h : Z) (r : feature_row) :
  In r rows ->
  from_station (source r) = origin -> to_station (source r) = destination ->
  label_encoders !! "route_encoder" = None ->
  make_sample_prediction rows label_encoders names best origin destination h
  = ([], Raised "KeyError").
Proof.
  intros Hr Ha Hb Hmiss. unfold make_sample_prediction.
  destruct (filter_nonempty
              (fun r => String.eqb (from_station (source r)) origin
                        && String.eqb (to_station (source r)) destination)
              rows r Hr) as [r' [rest Hf]].
  { rewrite Ha, Hb, !String.eqb_refl. reflexivity. }
  rewrite Hf. unfold encode_route. rewrite Hmiss. reflexivity.
Qed.

(** When the encoders dict has no entry "route_encoder" and the data is not
    empty, the sample loop stops in its first call with [KeyError]: only
    the two header lines have been printed. *)
Theorem sample_loop_stops_without_encoder (df : list departure)
    (label_encoders : gmap string LabelEncoder.t) (names : list string)
    (best : model) :
  df <> [] ->
  label_encoders !! "route_encoder" = None ->
  run_sample_predictions format_minutes (create_features df) label_encoders
    names best
  = ([String.append test_tube " Testing model with sample predictions:"; ""],
     Raised "KeyError").
Proof.
  intros Hne Hmiss. destruct df as [|d df]; [congruence|].
  unfold run_sample_predictions, sample_routes.
  set (rows := create_features (d :: df)).
  assert (Hrows : exists r rows', rows = r :: rows' /\ source r = d).
  { unfold rows. rewrite create_features_eq. simpl. eauto. }
  destruct Hrows as [r [rows' [Hrows Hsrc]]].
  assert (Hr : In r rows) by (rewrite Hrows; left; reflexivity).
  assert (Hroutes : exists rest,
            firstn 5 (drop_duplicates
                        (map (fun r => (from_station (source r),
                                        to_station (source r))) rows))
            = (from_station (source r), to_station (source r)) :: rest).
  { rewrite Hrows. simpl. eauto. }
  destruct Hroutes as [rest Hroutes]. rewrite Hroutes.
  cbn [routes_loop fst snd test_hours hours_loop].
  rewrite (missing_encoder_call rows label_encoders names best _ _ 8 r Hr
             eq_refl eq_refl Hmiss).
  reflexivity.
Qed.

End SampleLoopErrors.

(** ** Concrete runs of the further properties *)

Lemma serving_row_matches_training_row_witness :
  nth_error scenario_df 0 = Some (scenario_departure 8 5)
  /\ exists X y label_encoders,
       prepare_features (fun _ => "") (create_features scenario_df)
         = Returned (X, y, label_encoders)
       /\ @make_sample_prediction R constant_regressor
            (create_features scenario_df) label_encoders (columns X)
            4%R "A" "B" 8
          = ([], @served_prediction R constant_regressor 4%R (frame_row 0 X)).
Proof.
  assert (Hj : nth_error scenario_df 0 = Some (scenario_departure 8 5))
    by reflexivity.
  split; [exact Hj|].
  apply (@serving_row_matches_training_row R constant_regressor (fun _ => "")
           scenario_df 0%nat (scenario_departure 8 5) 4%R Hj).
  intros i d' Hi. lia.
Defined.


Lemma sample_loop_completes_witness :
  (forall row, @predict R constant_regressor 4%R [row] <> [])
  /\ exists X y label_encoders,
       prepare_features (fun _ => "") (create_features scenario_df)
         = Returned (X, y, label_encoders)
       /\ snd (@run_sample_predictions R constant_regressor (fun _ => "4.0")
                 (create_features scenario_df) label_encoders (columns X) 4%R)
          = Returned tt
       /\ length (fst (@run_sample_predictions R constant_regressor
                         (fun _ => "4.0") (create_features scenario_df)
                         label_encoders (columns X) 4%R))
          = (2 + 4 * length (sample_routes (create_features scenario_df)))%nat.
Proof.
  assert (Hp : forall row, @predict R constant_regressor 4%R [row] <> [])
    by (intros row; discriminate).
  split; [exact Hp|].
  destruct (@sample_loop_completes R constant_regressor (fun _ => "")
              (fun _ => "4.0") scenario_df 4%R Hp)
    as [X [y [encs [p [Hprep [_ [Hrun Hlen]]]]]]].
  exists X, y, encs. split; [exact Hprep|]. split; [|exact Hlen].
  rewrite Hrun. reflexivity.
Defined.

Lemma sample_loop_stops_without_encoder_witness :
  scenario_df <> []
  /\ (∅ : gmap string LabelEncoder.t) !! "route_encoder" = None
  /\ @run_sample_predictions R constant_regressor (fun _ => "4.0")
       (create_features scenario_df) ∅ feature_columns 4%R
     = ([String.append test_tube " Testing model with sample predictions:"; ""],
        Raised "KeyError").
Proof.
  assert (Hne : scenario_df <> []) by discriminate.
  assert (Hm : (∅ : gmap string LabelEncoder.t) !! "route_encoder" = None)
    by reflexivity.
  split; [exact Hne|]. split; [exact Hm|].
  exact (@sample_loop_stops_without_encoder R constant_regressor
           (fun _ => "4.0") scenario_df ∅ feature_columns 4%R Hne Hm).
Defined.

Lemma route_statistics_well_defined_witness :
  let row := featurize (scenario_departure 20 3,
                        Some (route_stat_for scenario_df "A_B")) in
  In row (create_features scenario_df)
  /\ route_count row = Some 3%nat
  /\ (0 <= route_std_delay row)%R.
Proof.
  intros row.
  assert (Hin : In row (create_features scenario_df)).
  { rewrite create_features_eq. right. right. left. reflexivity. }
  destruct (route_statistics_well_defined scenario_df row Hin)
    as [_ [[n [Hn _]] Hstd]].
  split; [exact Hin|]. split; [reflexivity | exact Hstd].
Defined.

Lemma route_key_identifies_pair_witness :
  let row1 := featurize (scenario_departure 8 5,
                         Some (route_stat_for scenario_df "A_B")) in
  let row2 := featurize (scenario_departure 20 3,
                         Some (route_stat_for scenario_df "A_B")) in
  In row1 (create_features scenario_df)
  /\ In row2 (create_features scenario_df)
  /\ no_underscore (from_station (source row1))
  /\ no_underscore (from_station (source row2))
  /\ route row1 = route row2
  /\ from_station (source row1) = from_station (source row2)
  /\ to_station (source row1) = to_station (source row2).
Proof.
  intros row1 row2.
  assert (H1 : In row1 (create_features scenario_df)).
  { rewrite create_features_eq. left. reflexivity. }
  assert (H2 : In row2 (create_features scenario_df)).
  { rewrite create_features_eq. right. right. left. reflexivity. }
  assert (Hu : no_underscore "A").
  { unfold no_underscore. simpl. intros [E|[]]. discriminate E. }
  assert (Hk : route row1 = route row2) by reflexivity.
  split; [exact H1|]. split; [exact H2|]. split; [exact Hu|].
  split; [exact Hu|]. split; [exact Hk|].
  exact (route_key_identifies_pair scenario_df row1 row2 H1 H2 Hu Hu Hk).
Defined.

Lemma encoder_is_order_preserving_witness :
  LabelEncoder.encode (LabelEncoder.fit ["STO_GOT"; "GOT_MAL"; "STO_GOT"])
    "GOT_MAL" = Returned 0%nat
  /\ LabelEncoder.encode (LabelEncoder.fit ["STO_GOT"; "GOT_MAL"; "STO_GOT"])
       "STO_GOT" = Returned 1%nat
  /\ String_as_OT.lt "GOT_MAL" "STO_GOT".
Proof.
  assert (H1 : LabelEncoder.encode
                 (LabelEncoder.fit ["STO_GOT"; "GOT_MAL"; "STO_GOT"])
                 "GOT_MAL" = Returned 0%nat) by reflexivity.
  assert (H2 : LabelEncoder.encode
                 (LabelEncoder.fit ["STO_GOT"; "GOT_MAL"; "STO_GOT"])
                 "STO_GOT" = Returned 1%nat) by reflexivity.
  split; [exact H1|]. split; [exact H2|].
  apply (encoder_is_order_preserving _ _ _ _ _ H1 H2). lia.
Defined.

Lemma cyclical_encoding_injective_witness :
  (0 <= 8 <= 23)%Z
  /\ (0 <= 20 <= 23)%Z
  /\ ~ (cyclical_sin 8 = cyclical_sin 20 /\ cyclical_cos 8 = cyclical_cos 20).
Proof.
  assert (H8 : (0 <= 8 <= 23)%Z) by lia.
  assert (H20 : (0 <= 20 <= 23)%Z) by lia.
  split; [exact H8|]. split; [exact H20|].
  intros Heq. apply (cyclical_encoding_injective 8 20 H8 H20) in Heq.
  discriminate Heq.
Defined.

Lemma encode_route_errors_witness :
  let fitted := LabelEncoder.fit ["STO_GOT"; "GOT_MAL"] in
  let with_route : gmap string LabelEncoder.t :=
    <[ "route_encoder" := fitted ]> {[ "station_encoder" := fitted ]} in
  let without_route : gmap string LabelEncoder.t :=
    {[ "station_encoder" := fitted ]} in
  with_route !! "route_encoder" = Some fitted
  /\ without_route !! "route_encoder" = None
  /\ (exists c, encode_route with_route "GOT_MAL" = Returned c)
  /\ encode_route with_route "MAL_GOT" = Raised "ValueError"
  /\ encode_route without_route "GOT_MAL" = Raised "KeyError".
Proof.
  intros fitted with_route without_route.
  assert (Hwith : with_route !! "route_encoder" = Some fitted)
    by apply lookup_insert_eq.
  assert (Hwithout : without_route !! "route_encoder" = None).
  { apply lookup_singleton_ne. discriminate. }
  split; [exact Hwith|]. split; [exact Hwithout|].
  destruct (encode_route_errors with_route ["STO_GOT"; "GOT_MAL"] "GOT_MAL")
    as [Hseen _].
  destruct (encode_route_errors with_route ["STO_GOT"; "GOT_MAL"] "MAL_GOT")
    as [Hunseen _].
  destruct (encode_route_errors without_route ["STO_GOT"; "GOT_MAL"] "GOT_MAL")
    as [_ Hmissing].
  split; [|split].
  - apply (Hseen Hwith). simpl. tauto.
  - apply (Hunseen Hwith). simpl. intros [E|[E|[]]]; discriminate E.
  - exact (Hmissing Hwithout).
Defined.
